(** * react-native-device: the fault-tolerant native-data acquisition layer

  A shallow embedding of the guarded call primitives
  ([nativeModuleUtils.ts]), the string utilities ([stringUtils.ts]), the
  specialised services behind the [DeviceService] facade and the
  classification functions of [DeviceUtils], followed by the properties
  proved about them.

  Conventions of the embedding.
  - A JavaScript value of type [T | null] (or [T | undefined]) is an
    [option T]; [null] and [undefined] are both [None].  Every test the
    source applies to such a value ([??], [||], [!x], [if (x)]) treats the
    two alike.  The one value compared with [===], the constant
    [Device.DeviceType.TABLET], is a [strictValue], which keeps them
    apart.
  - A [number] that holds an integer (a byte count, a year class, a
    threshold in GB) is a [Z]; a quotient of two of them is an exact
    rational [Q].  Dividing an integer below 2^53 in magnitude by a power
    of two is exact in IEEE doubles, so comparisons and [toFixed] on
    [bytes / 1024^3] and [bytes / 1024^2] are computed exactly.
  - A string is a [string] of 8-bit characters; case mapping and the
    character class [a-zA-Z0-9] are the ASCII ones.
  - Asynchronous code runs on a logical clock counted in milliseconds.  A
    promise is the time and the way it settles, or is pending for ever; an
    [async] function is a function of the time of its call.  A timer set
    at [now] for [ms] fires at [now + ms].  Which of two contenders of a
    [Promise.race] wins when both are ready in the same millisecond is left
    to the host, and every statement holds for either choice.
  - [Platform.OS] is any string, [Math.random().toString(36)] any string,
    and [Date.now()] the logical clock. *)

From Stdlib Require Import ZArith QArith Qround List Bool Ascii String Lia.
From Stdlib Require Import DecimalString.
Import ListNotations.

Close Scope Q_scope.
Open Scope list_scope.
Open Scope string_scope.

(* ================================================================== *)
(** * JavaScript primitives used by the source *)
(* ================================================================== *)

Module JS.
Local Open Scope Z_scope.

(** Truthiness of a nullable number: [null], [undefined] and [0] are
    falsy.  The function returns the number when it is truthy. *)
Definition truthyNum (x : option Z) : option Z :=
  match x with
  | Some v => if v =? 0 then None else Some v
  | None => None
  end.

(** Truthiness of a nullable string: the empty string is falsy. *)
Definition truthyStr (x : option string) : option string :=
  match x with
  | Some EmptyString => None
  | Some s => Some s
  | None => None
  end.

(** [a || b] on nullable strings. *)
Definition orStr (a b : option string) : option string :=
  match truthyStr a with
  | Some s => Some s
  | None => b
  end.

(** [a ?? b]. *)
Definition nullish {A} (a : option A) (b : option A) : option A :=
  match a with
  | Some v => Some v
  | None => b
  end.

(** [String(n)] for an integer [n] below 10^21 in magnitude. *)
Definition numToString (n : Z) : string :=
  NilZero.string_of_int (Z.to_int n).

(** Two decimal digits of [0 <= n < 100], zero padded. *)
Definition twoDigits (n : Z) : string :=
  (if n <? 10 then "0" else "") ++ numToString n.

(** [x.toFixed(2)] for [x] below 10^21 in magnitude: the integer [n] for
    which [n / 100 - x] is closest to zero, the larger one on a tie,
    printed with two decimals; a negative [x] is printed as ["-"] followed
    by the result for [-x].  From 10^21 on JavaScript prints the number in
    exponent notation, which is not modelled here: what is stated about a
    printed value is stated for numbers below that bound. *)
Definition toFixed2Abs (x : Q) : string :=
  let n := Qfloor (x * 100 + (1 # 2))%Q in
  numToString (n / 100) ++ "." ++ twoDigits (n mod 100).

Definition toFixed2 (x : Q) : string :=
  if Qle_bool 0 x then toFixed2Abs x else "-" ++ toFixed2Abs (- x)%Q.

(** [x < y] and [x >= y] on exact quotients. *)
Definition Qltb (x y : Q) : bool := negb (Qle_bool y x).
Definition Qgeb (x y : Q) : bool := Qle_bool y x.

Definition isUpper (c : ascii) : bool :=
  let n := nat_of_ascii c in (65 <=? n)%nat && (n <=? 90)%nat.
Definition isLower (c : ascii) : bool :=
  let n := nat_of_ascii c in (97 <=? n)%nat && (n <=? 122)%nat.
Definition isDigit (c : ascii) : bool :=
  let n := nat_of_ascii c in (48 <=? n)%nat && (n <=? 57)%nat.

(** The complement of the class [[^a-zA-Z0-9]]. *)
Definition isAlnum (c : ascii) : bool := isLower c || isUpper c || isDigit c.

Definition upperChar (c : ascii) : ascii :=
  if isLower c then ascii_of_nat (nat_of_ascii c - 32) else c.
Definition lowerChar (c : ascii) : ascii :=
  if isUpper c then ascii_of_nat (nat_of_ascii c + 32) else c.

Fixpoint mapStr (f : ascii -> ascii) (s : string) : string :=
  match s with
  | EmptyString => EmptyString
  | String c r => String (f c) (mapStr f r)
  end.

Fixpoint filterStr (f : ascii -> bool) (s : string) : string :=
  match s with
  | EmptyString => EmptyString
  | String c r => if f c then String c (filterStr f r) else filterStr f r
  end.

Fixpoint allStr (f : ascii -> bool) (s : string) : bool :=
  match s with
  | EmptyString => true
  | String c r => f c && allStr f r
  end.

Definition toUpperCase : string -> string := mapStr upperChar.
Definition toLowerCase : string -> string := mapStr lowerChar.

(** [s.substring(from)] for [0 <= from]. *)
Fixpoint substringFrom (from : nat) (s : string) : string :=
  match from, s with
  | O, _ => s
  | S k, EmptyString => EmptyString
  | S k, String _ r => substringFrom k r
  end.

(** [s.substring(from, to)] for [0 <= from <= to]. *)
Definition substring (from to : nat) (s : string) : string :=
  String.substring from (to - from) s.

(** [s.includes(needle)]. *)
Fixpoint includes (needle s : string) : bool :=
  String.prefix needle s ||
  match s with
  | EmptyString => false
  | String _ r => includes needle r
  end.

End JS.

(* ================================================================== *)
(** * Domain entities ([domain/entities/Device.ts]) *)
(* ================================================================== *)

(** [DeviceType] of expo-device, numbered as in [DEVICE_CONSTANTS]. *)
Inductive DeviceType := UNKNOWN | PHONE | TABLET | DESKTOP | TV.

Definition DeviceType_eqb (a b : DeviceType) : bool :=
match a, b with
| UNKNOWN, UNKNOWN | PHONE, PHONE | TABLET, TABLET
| DESKTOP, DESKTOP | TV, TV => true
| _, _ => false
end.

(** A value read from a module where the source compares it with [===],
    which tells [undefined], [null] and a value apart. *)
Inductive strictValue (A : Type) :=
| IsUndefined
| IsNull
| IsValue (v : A).
Arguments IsUndefined {A}.
Arguments IsNull {A}.
Arguments IsValue {A} v.

(** [deviceType === constant], for a [deviceType] that is a value or
    [null], as every snapshot has it, and a [constant] read from a
    module. *)
Definition strictEqualsDeviceType (deviceType : option DeviceType)
  (constant : strictValue DeviceType) : bool :=
  match deviceType, constant with
  | Some a, IsValue b => DeviceType_eqb a b
  | None, IsNull => true
  | _, _ => false
  end.

Record DeviceInfo := mkDeviceInfo {
brand : option string;
manufacturer : option string;
modelName : option string;
modelId : option string;
deviceName : option string;
deviceYearClass : option Z;
deviceType : option DeviceType;
isDevice : bool;
osName : option string;
osVersion : option string;
osBuildId : option string;
platformApiLevel : option Z;
totalMemory : option Z;
platform : string
}.

Record ApplicationInfo := mkApplicationInfo {
applicationName : string;
applicationId : string;
nativeApplicationVersion : option string;
nativeBuildVersion : option string;
installTime : option Z;
lastUpdateTime : option Z;
androidId : option string;
iosIdForVendor : option string
}.

Record SystemInfo := mkSystemInfo {
device : DeviceInfo;
application : ApplicationInfo;
timestamp : nat;
userId : option string
}.

(* ================================================================== *)
(** * Classification functions ([DeviceUtils]) *)
(* ================================================================== *)

Module DeviceUtils.
Local Open Scope Z_scope.

Inductive Tier := low | mid | high.

Record Requirements := mkRequirements {
  meets : bool;
  reasons : list string
}.

(** [1024 * 1024 * 1024] and [1024 * 1024]. *)
Definition GiB : Z := 1024 * 1024 * 1024.
Definition MiB : Z := 1024 * 1024.

(** [bytes / (1024 * 1024 * 1024)] and [bytes / (1024 * 1024)]. *)
Definition inGiB (bytes : Z) : Q := (inject_Z bytes / inject_Z GiB)%Q.
Definition inMiB (bytes : Z) : Q := (inject_Z bytes / inject_Z MiB)%Q.

Definition isTablet (deviceType : option DeviceType) : bool :=
  match deviceType with
  | Some t => DeviceType_eqb t TABLET
  | None => false
  end.

Definition isPhone (deviceType : option DeviceType) : bool :=
  match deviceType with
  | Some t => DeviceType_eqb t PHONE
  | None => false
  end.

Definition formatMemorySize (bytes : option Z) : string :=
  match JS.truthyNum bytes with
  | None => "Unknown"
  | Some b =>
      let gb := inGiB b in
      if JS.Qgeb gb 1 then JS.toFixed2 gb ++ " GB"
      else
        let mb := inMiB b in
        JS.toFixed2 mb ++ " MB"
  end.

Definition simulatorReason : string := "Running on simulator/emulator".

Definition memoryReason (memoryGB : Q) (minMemoryGB : Z) : string :=
  "Insufficient memory: " ++ JS.toFixed2 memoryGB ++ "GB (minimum: "
    ++ JS.numToString minMemoryGB ++ "GB)".

Definition yearReason (year : Z) : string :=
  "Device too old: " ++ JS.numToString year ++ " (minimum: 2018)".

(** [reasons.push(reason)]. *)
Definition push (reasons : list string) (reason : string) : list string :=
  reasons ++ [reason].

Definition meetsMinimumRequirements (info : DeviceInfo) (minMemoryGB : Z)
  : Requirements :=
  let reasons : list string := [] in
  let reasons :=
    if negb (isDevice info) then push reasons simulatorReason else reasons in
  let reasons :=
    match JS.truthyNum (totalMemory info) with
    | Some m =>
        let memoryGB := inGiB m in
        if JS.Qltb memoryGB (inject_Z minMemoryGB)
        then push reasons (memoryReason memoryGB minMemoryGB)
        else reasons
    | None => reasons
    end in
  let reasons :=
    match JS.truthyNum (deviceYearClass info) with
    | Some y => if y <? 2018 then push reasons (yearReason y) else reasons
    | None => reasons
    end in
  {| meets := (List.length reasons =? 0)%nat; reasons := reasons |}.

(** The default [minMemoryGB = 1]. *)
Definition meetsMinimumRequirementsDefault (info : DeviceInfo) : Requirements :=
  meetsMinimumRequirements info 1.

Definition getDeviceTier (info : DeviceInfo) : Tier :=
  match JS.truthyNum (deviceYearClass info) with
  | Some y =>
      if y >=? 2022 then high
      else if y >=? 2019 then mid
      else low
  | None =>
      match JS.truthyNum (totalMemory info) with
      | Some m =>
          let memoryGB := inGiB m in
          if JS.Qgeb memoryGB 6 then high
          else if JS.Qgeb memoryGB 3 then mid
          else low
      | None => mid
      end
  end.

Definition isPhysicalDevice (isDevice : bool) : bool := isDevice.

Definition getDeviceDisplayName (info : DeviceInfo) : string :=
  match JS.truthyStr (deviceName info) with
  | Some name => name
  | None =>
      match JS.truthyStr (modelName info) with
      | Some name => name
      | None =>
          match JS.truthyStr (brand info), JS.truthyStr (manufacturer info) with
          | Some b, Some m => b ++ " " ++ m
          | _, _ => "Unknown Device"
          end
      end
  end.

Definition getOSDisplayString (info : DeviceInfo) : string :=
  match JS.truthyStr (osName info), JS.truthyStr (osVersion info) with
  | Some name, Some version => name ++ " " ++ version
  | Some name, None => name
  | None, _ => "Unknown OS"
  end.

Definition getAppVersionString (info : ApplicationInfo) : string :=
  match JS.truthyStr (nativeApplicationVersion info),
        JS.truthyStr (nativeBuildVersion info) with
  | Some version, Some build => version ++ " (" ++ build ++ ")"
  | Some version, None => version
  | None, _ => "Unknown Version"
  end.

End DeviceUtils.

(* ================================================================== *)
(** * Promises on a logical clock *)
(* ================================================================== *)

(** Time is counted in milliseconds on the event loop's clock.  A promise
    is described by when and how it settles; a rejection's error value is
    dropped, as every handler of the source ignores it.  A function call
    either returns or throws synchronously. *)

Module Async.

Definition time := nat.

Inductive outcome (A : Type) :=
| Fulfilled (v : A)
| Rejected.
Arguments Fulfilled {A} v.
Arguments Rejected {A}.

Inductive promise (A : Type) :=
| Settles (t : time) (o : outcome A)
| Pending.
Arguments Settles {A} t o.
Arguments Pending {A}.

Inductive completion (A : Type) :=
| Returned (v : A)
| Thrown.
Arguments Returned {A} v.
Arguments Thrown {A}.

(** The body of an [async] function, run from the time of the call. *)
Definition async (A : Type) := time -> promise A.

(** A zero-argument function returning a promise, called at a given time. *)
Definition thunk (A : Type) := time -> completion (promise A).

(** A property read or synchronous call on a native module at a given time. *)
Definition getter (A : Type) := time -> completion A.

Definition ret {A} (v : A) : async A :=
  fun now => Settles now (Fulfilled v).

Definition throw {A} : async A :=
  fun now => Settles now Rejected.

Definition bind {A B} (m : async A) (k : A -> async B) : async B :=
  fun now =>
    match m now with
    | Settles t (Fulfilled v) => k v t
    | Settles t Rejected => Settles t Rejected
    | Pending => Pending
    end.

(** [try { body } catch { handler }] inside an [async] function. *)
Definition tryCatch {A} (body handler : async A) : async A :=
  fun now =>
    match body now with
    | Settles t Rejected => handler t
    | settled => settled
    end.

(** [await p]. *)
Definition await {A} (p : promise A) : async A :=
  fun now =>
    match p with
    | Settles t o => Settles (Nat.max now t) o
    | Pending => Pending
    end.

(** A synchronous call inside an [async] body: an exception rejects it. *)
Definition call {A} (c : getter A) : async A :=
  fun now =>
    match c now with
    | Returned v => Settles now (Fulfilled v)
    | Thrown => Settles now Rejected
    end.

(** Calling an [async] function: the promise of its body, never a throw. *)
Definition start {A} (body : async A) : thunk A :=
  fun now => Returned (body now).

(** [async () => f()]: a synchronous throw of [f] rejects the promise. *)
Definition asyncArrow {A} (f : thunk A) : thunk A :=
  fun now =>
    match f now with
    | Returned p => Returned p
    | Thrown => Returned (Settles now Rejected)
    end.

(** [new Promise((_, reject) => setTimeout(() => reject(...), ms))]
    created at [now]. *)
Definition rejectAfter {A} (now ms : time) : promise A :=
  Settles (now + ms) Rejected.

(** [Promise.race([p, q])]: the contender that settles first.  When both
    settle in the same millisecond the event loop decides; [firstWins]
    records its choice. *)
Definition race {A} (firstWins : time -> bool) (p q : promise A) : promise A :=
  match p, q with
  | Settles tp _, Settles tq _ =>
      if (tp <? tq)%nat then p
      else if (tq <? tp)%nat then q
      else if firstWins tp then p else q
  | Settles _ _, Pending => p
  | Pending, _ => q
  end.

(** [p.catch(() => v)]. *)
Definition catchWith {A} (p : promise A) (v : A) : promise A :=
  match p with
  | Settles t Rejected => Settles t (Fulfilled v)
  | other => other
  end.

(** [Promise.all([p, q])]. *)
Definition all2 {A B} (now : time) (p : promise A) (q : promise B)
  : promise (A * B) :=
  match p, q with
  | Settles tp (Fulfilled a), Settles tq (Fulfilled b) =>
      Settles (Nat.max now (Nat.max tp tq)) (Fulfilled (a, b))
  | Settles tp Rejected, Settles tq Rejected =>
      Settles (Nat.max now (Nat.min tp tq)) Rejected
  | Settles tp Rejected, _ => Settles (Nat.max now tp) Rejected
  | _, Settles tq Rejected => Settles (Nat.max now tq) Rejected
  | _, _ => Pending
  end.

(** [Promise.all(ps)] created at [now]. *)
Fixpoint all {A} (now : time) (ps : list (promise A)) : promise (list A) :=
  match ps with
  | [] => Settles now (Fulfilled [])
  | p :: rest =>
      match all2 now p (all now rest) with
      | Settles t (Fulfilled (v, vs)) => Settles t (Fulfilled (v :: vs))
      | Settles t Rejected => Settles t Rejected
      | Pending => Pending
      end
  end.

End Async.

Import Async.

Declare Scope async_scope.
Delimit Scope async_scope with async.
Notation "x <- m ;; k" := (bind m (fun x => k))
  (at level 61, m at next level, right associativity) : async_scope.
Notation "' pat <- m ;; k" := (bind m (fun x => match x with pat => k end))
  (at level 61, pat pattern, m at next level, right associativity) : async_scope.
Open Scope async_scope.

(* ================================================================== *)
(** * Guarded call primitives ([infrastructure/utils/nativeModuleUtils.ts]) *)
(* ================================================================== *)

Section NativeModuleUtils.

(** How the event loop orders the operation and the timer when both are
    ready in the same millisecond: [true] serves the operation first. *)
Variable firstWins : time -> bool.

Definition withTimeout {T} (operation : thunk (option T)) (timeoutMs : nat)
  : async (option T) :=
  tryCatch
    (fun now =>
       let timeoutPromise := rejectAfter now timeoutMs in
       (p <- call operation ;;
        await (race firstWins p timeoutPromise)) now)
    (ret None).

(** [safeAccess(accessor, fallback)] with a non-null [fallback]. *)
Definition safeAccess {T} (accessor : completion (option T)) (fallback : T) : T :=
  match accessor with
  | Returned value =>
      match value with
      | Some v => v
      | None => fallback
      end
  | Thrown => fallback
  end.

(** [safeAccess(accessor, null)]. *)
Definition safeAccessNull {T} (accessor : completion (option T)) : option T :=
  match accessor with
  | Returned value => JS.nullish value None
  | Thrown => None
  end.

(** [operations.map((op) => op().catch(() => null))]: the calls are made in
    order and the first synchronous throw aborts the [map]. *)
Fixpoint invokeAll {T} (operations : list (thunk (option T))) (now : time)
  : completion (list (promise (option T))) :=
  match operations with
  | [] => Returned []
  | op :: rest =>
      match op now with
      | Thrown => Thrown
      | Returned p =>
          match invokeAll rest now with
          | Thrown => Thrown
          | Returned ps => Returned (catchWith p None :: ps)
          end
      end
  end.

(** [operations.map(() => null)]. *)
Definition allNull {T} (operations : list (thunk (option T))) : list (option T) :=
  map (fun _ => None) operations.

Definition withTimeoutAll {T} (operations : list (thunk (option T)))
  (timeoutMs : nat) : async (list (option T)) :=
  tryCatch
    (fun now =>
       let timeoutPromise := rejectAfter now timeoutMs in
       (ps <- call (invokeAll operations) ;;
        results <- await (catchWith
                            (race firstWins (all now ps) timeoutPromise)
                            (allNull operations)) ;;
        ret results) now)
    (ret (allNull operations)).

End NativeModuleUtils.

(* ================================================================== *)
(** * External collaborators *)
(* ================================================================== *)

(** The [expo-device] module.  Every property read may return a value,
    return [null]/[undefined] or throw, and may differ from one time to
    another; [getMaxMemoryAsync] may throw, or return a promise that
    fulfils, rejects or stays pending.  [DeviceType_TABLET] is the read
    [Device.DeviceType.TABLET] of the enumeration the module exports, which
    throws when [Device.DeviceType] cannot be read or is [undefined]. *)
Module Device.
Record t := {
  DeviceType_TABLET : getter (strictValue DeviceType);
  brand : getter (option string);
  manufacturer : getter (option string);
  modelName : getter (option string);
  modelId : getter (option string);
  deviceName : getter (option string);
  deviceYearClass : getter (option Z);
  deviceType : getter (option DeviceType);
  isDevice : getter (option bool);
  osName : getter (option string);
  osVersion : getter (option string);
  osBuildId : getter (option string);
  platformApiLevel : getter (option Z);
  getMaxMemoryAsync : thunk (option Z)
}.
End Device.

(** The [expo-application] module; a [Date] is its millisecond count. *)
Module Application.
Record t := {
  applicationName : getter (option string);
  applicationId : getter (option string);
  nativeApplicationVersion : getter (option string);
  nativeBuildVersion : getter (option string);
  getInstallationTimeAsync : thunk (option Z);
  getLastUpdateTimeAsync : thunk (option Z);
  getAndroidId : thunk (option string);
  getIosIdForVendorAsync : thunk (option string)
}.
End Application.

(** Everything a call of the layer depends on: [Platform.OS], the two
    native modules, the string [Math.random().toString(36)] drawn at a
    given time, and the event loop's choice between two contenders of a
    race that are ready in the same millisecond. *)
Record Host := {
  OS : string;
  deviceModule : Device.t;
  applicationModule : Application.t;
  random36 : time -> string;
  scheduler : time -> bool
}.

(* ================================================================== *)
(** * String utilities ([infrastructure/utils/stringUtils.ts]) *)
(* ================================================================== *)

Definition cleanModelName (model : option string) : string :=
  match JS.truthyStr model with
  | None => "Device"
  | Some m => JS.filterStr JS.isAlnum m
  end.

(** [generateRandomId(length)], given the value of
    [Math.random().toString(36)]. *)
Definition generateRandomId (rnd36 : string) (length : nat) : string :=
  JS.toUpperCase (JS.substring 2 (2 + length) rnd36).

(** [extractIdPart(deviceId, length)].  Lengths and case mapping are those
    of JavaScript on ASCII identifiers; what is stated about the length or
    the letters of the result is stated for such identifiers. *)
Definition extractIdPart (rnd36 : string) (deviceId : option string)
  (length : nat) : string :=
  match JS.truthyStr deviceId with
  | None => generateRandomId rnd36 length
  | Some id =>
      let from := Z.max 0 (Z.of_nat (String.length id) - Z.of_nat length) in
      JS.toUpperCase (JS.substringFrom (Z.to_nat from) id)
  end.

Definition getPlatformPrefix (platform : string) : string :=
  if (platform =? "ios")%string then "iOS"
  else if (platform =? "android")%string then "Android"
  else "Device".

(* ================================================================== *)
(** * Services ([infrastructure/services]) *)
(* ================================================================== *)

Module DeviceInfoService.

Definition getMinimalDeviceInfo (h : Host) : DeviceInfo :=
  {| brand := None;
     manufacturer := None;
     modelName := None;
     modelId := None;
     deviceName := None;
     deviceYearClass := None;
     deviceType := None;
     isDevice := false;
     osName := None;
     osVersion := None;
     osBuildId := None;
     platformApiLevel := None;
     totalMemory := None;
     platform := OS h |}.

Definition getDeviceInfo (h : Host) : async DeviceInfo :=
  let D := deviceModule h in
  tryCatch
    (totalMemory <- withTimeout (scheduler h) (Device.getMaxMemoryAsync D) 1000 ;;
     fun now =>
       let brand := safeAccessNull (Device.brand D now) in
       let manufacturer := safeAccessNull (Device.manufacturer D now) in
       let modelName := safeAccessNull (Device.modelName D now) in
       let modelId := safeAccessNull (Device.modelId D now) in
       let deviceName := safeAccessNull (Device.deviceName D now) in
       let deviceYearClass := safeAccessNull (Device.deviceYearClass D now) in
       let deviceType := safeAccessNull (Device.deviceType D now) in
       let isDevice := safeAccess (Device.isDevice D now) false in
       let osName := safeAccessNull (Device.osName D now) in
       let osVersion := safeAccessNull (Device.osVersion D now) in
       let osBuildId := safeAccessNull (Device.osBuildId D now) in
       let platformApiLevel := safeAccessNull (Device.platformApiLevel D now) in
       ret {| brand := brand;
              manufacturer := manufacturer;
              modelName := modelName;
              modelId := modelId;
              deviceName := deviceName;
              deviceYearClass := deviceYearClass;
              deviceType := deviceType;
              isDevice := isDevice;
              osName := osName;
              osVersion := osVersion;
              osBuildId := osBuildId;
              platformApiLevel := platformApiLevel;
              totalMemory := totalMemory;
              platform := OS h |} now)
    (ret (getMinimalDeviceInfo h)).

End DeviceInfoService.

Module ApplicationInfoService.

Definition getMinimalApplicationInfo : ApplicationInfo :=
  {| applicationName := "Unknown";
     applicationId := "Unknown";
     nativeApplicationVersion := None;
     nativeBuildVersion := None;
     installTime := None;
     lastUpdateTime := None;
     androidId := None;
     iosIdForVendor := None |}.

(** [s || 'Unknown'] on a string. *)
Definition orUnknown (s : string) : string :=
  match s with
  | EmptyString => "Unknown"
  | _ => s
  end.

Definition getApplicationInfo (h : Host) : async ApplicationInfo :=
  let A := applicationModule h in
  tryCatch
    ('(installTime, lastUpdateTime) <-
        (fun now =>
           await (all2 now
                    (withTimeout (scheduler h)
                       (Application.getInstallationTimeAsync A) 1000 now)
                    (withTimeout (scheduler h)
                       (Application.getLastUpdateTimeAsync A) 1000 now)) now) ;;
     fun now =>
       let applicationName :=
         safeAccess (Application.applicationName A now) "Unknown" in
       let applicationId :=
         safeAccess (Application.applicationId A now) "Unknown" in
       let nativeApplicationVersion :=
         safeAccessNull (Application.nativeApplicationVersion A now) in
       let nativeBuildVersion :=
         safeAccessNull (Application.nativeBuildVersion A now) in
       (androidId <-
          (if (OS h =? "android")%string
           then result <- withTimeout (scheduler h)
                            (asyncArrow (Application.getAndroidId A)) 1000 ;;
                ret (JS.truthyStr result)
           else ret None) ;;
        iosIdForVendor <-
          (if (OS h =? "ios")%string
           then result <- withTimeout (scheduler h)
                            (asyncArrow (Application.getIosIdForVendorAsync A)) 1000 ;;
                ret (JS.truthyStr result)
           else ret None) ;;
        ret {| applicationName := orUnknown applicationName;
               applicationId := orUnknown applicationId;
               nativeApplicationVersion := nativeApplicationVersion;
               nativeBuildVersion := nativeBuildVersion;
               installTime := installTime;
               lastUpdateTime := lastUpdateTime;
               androidId := androidId;
               iosIdForVendor := iosIdForVendor |}) now)
    (ret getMinimalApplicationInfo).

End ApplicationInfoService.

Module DeviceIdService.

Definition getDeviceId (h : Host) : async (option string) :=
  let A := applicationModule h in
  tryCatch
    (if (OS h =? "android")%string then
       result <- withTimeout (scheduler h)
                   (asyncArrow (Application.getAndroidId A)) 1000 ;;
       ret (JS.truthyStr result)
     else if (OS h =? "ios")%string then
       result <- withTimeout (scheduler h)
                   (asyncArrow (Application.getIosIdForVendorAsync A)) 1000 ;;
       ret (JS.truthyStr result)
     else ret None)
    (ret None).

(** The default of the parameter [fallbackId]. *)
Definition defaultFallbackId : string := "offline_user".

(** [getOfflineUserId(fallbackId)]; [None] is a call without the argument. *)
Definition getOfflineUserId (h : Host) (fallbackId : option string)
  : async (option string) :=
  let fallbackId :=
    match fallbackId with
    | Some f => f
    | None => defaultFallbackId
    end in
  if (OS h =? "web")%string then ret None
  else
    deviceId <- getDeviceId h ;;
    match JS.truthyStr deviceId with
    | Some id => ret (Some ("offline_" ++ id))
    | None => ret (Some fallbackId)
    end.

End DeviceIdService.

(** The result of [getDeviceCapabilities]. *)
Module Capabilities.
Record t := {
  isDevice : bool;
  isTablet : bool;
  hasNotch : bool;
  totalMemoryGB : option Q
}.
End Capabilities.

Module DeviceCapabilityService.

(** [Device.modelName?.toLowerCase() || ''], which throws when the
    property read does. *)
Definition lowerModelName (h : Host) : getter (option string) :=
  fun now =>
    match Device.modelName (deviceModule h) now with
    | Thrown => Thrown
    | Returned None => Returned (Some "")
    | Returned (Some m) => Returned (JS.orStr (Some (JS.toLowerCase m)) (Some ""))
    end.

Definition hasNotch (h : Host) : async bool :=
  tryCatch
    (if negb (OS h =? "ios")%string then ret false
     else
       fun now =>
         let modelName := safeAccess (lowerModelName h now) "" in
         ret (JS.includes "iphone x" modelName
              || JS.includes "iphone 1" modelName
              || JS.includes "pro" modelName) now)
    (ret false).

(** The object literal is built in source order: [info.isDevice], then
    the read [Device.DeviceType.TABLET] for [isTablet], then
    [await this.hasNotch()].  The method has no [try]: a throw of that
    read rejects the promise. *)
Definition getDeviceCapabilities (h : Host) : async Capabilities.t :=
  info <- DeviceInfoService.getDeviceInfo h ;;
  tablet <- call (Device.DeviceType_TABLET (deviceModule h)) ;;
  notch <- hasNotch h ;;
  ret {| Capabilities.isDevice := isDevice info;
         Capabilities.isTablet := strictEqualsDeviceType (deviceType info) tablet;
         Capabilities.hasNotch := notch;
         Capabilities.totalMemoryGB :=
           match JS.truthyNum (totalMemory info) with
           | Some m => Some (DeviceUtils.inGiB m)
           | None => None
           end |}.

End DeviceCapabilityService.

Module UserFriendlyIdService.

(** The element type [T] of the batch handed to [withTimeoutAll]: a
    device snapshot or an identifier. *)
Inductive fetched :=
| FetchedInfo (d : DeviceInfo)
| FetchedId (s : string).

(** [x.modelName] and [x.deviceName] on a value of the batch; a string has
    neither property. *)
Definition modelNameOf (x : fetched) : option string :=
  match x with
  | FetchedInfo d => modelName d
  | FetchedId _ => None
  end.

Definition deviceNameOf (x : fetched) : option string :=
  match x with
  | FetchedInfo d => deviceName d
  | FetchedId _ => None
  end.

(** The two operations of the batch, as functions returning promises of
    the batch's element type. *)
Definition fetchInfo (h : Host) : thunk (option fetched) :=
  start (d <- DeviceInfoService.getDeviceInfo h ;; ret (Some (FetchedInfo d))).

Definition fetchId (h : Host) : thunk (option fetched) :=
  start (i <- DeviceIdService.getDeviceId h ;;
         ret (match i with
              | Some s => Some (FetchedId s)
              | None => None
              end)).

Definition generateFallbackId (h : Host) : async string :=
  fun now =>
    let platformPrefix := getPlatformPrefix (OS h) in
    ret (platformPrefix ++ "-" ++ generateRandomId (random36 h now) 6) now.

(** [extractIdPart(deviceId, 6)] on a value of the batch: a snapshot in
    that position has no [substring] method and the call throws. *)
Definition extractIdPartOf (h : Host) (deviceId : option fetched) : async string :=
  fun now =>
    match deviceId with
    | None => ret (extractIdPart (random36 h now) None 6) now
    | Some (FetchedId s) => ret (extractIdPart (random36 h now) (Some s) 6) now
    | Some (FetchedInfo _) => throw now
    end.

Definition getUserFriendlyId (h : Host) : async string :=
  if (OS h =? "web")%string then
    fun now => ret ("WebUser-" ++ generateRandomId (random36 h now) 6) now
  else
    tryCatch
      (results <- withTimeoutAll (scheduler h) [fetchInfo h; fetchId h] 2000 ;;
       let deviceInfo := nth 0 results None in
       let deviceId := nth 1 results None in
       match deviceInfo with
       | Some info =>
           match JS.truthyStr (JS.orStr (modelNameOf info) (deviceNameOf info)) with
           | Some _ =>
               let model :=
                 JS.orStr (JS.orStr (modelNameOf info) (deviceNameOf info))
                          (Some "Device") in
               let cleanModel := cleanModelName model in
               idPart <- extractIdPartOf h deviceId ;;
               ret (cleanModel ++ "-" ++ idPart)
           | None => generateFallbackId h
           end
       | None => generateFallbackId h
       end)
      (generateFallbackId h).

End UserFriendlyIdService.

(** The facade ([DeviceService]): every operation delegates. *)
Module DeviceService.

Definition getDeviceInfo (h : Host) : async DeviceInfo :=
  DeviceInfoService.getDeviceInfo h.

Definition getApplicationInfo (h : Host) : async ApplicationInfo :=
  ApplicationInfoService.getApplicationInfo h.

(** [getSystemInfo(options)]; [userId] is [options?.userId]. *)
Definition getSystemInfo (h : Host) (userId : option string) : async SystemInfo :=
  '(device, application) <-
     (fun now =>
        await (all2 now
                 (DeviceInfoService.getDeviceInfo h now)
                 (ApplicationInfoService.getApplicationInfo h now)) now) ;;
  fun now =>
    ret {| device := device;
           application := application;
           timestamp := now;
           userId := JS.truthyStr userId |} now.

Definition getDeviceId (h : Host) : async (option string) :=
  DeviceIdService.getDeviceId h.

Definition getOfflineUserId (h : Host) (fallbackId : option string)
  : async (option string) :=
  let fallbackId :=
    match fallbackId with
    | Some f => f
    | None => DeviceIdService.defaultFallbackId
    end in
  DeviceIdService.getOfflineUserId h (Some fallbackId).

Definition getDeviceCapabilities (h : Host)
  : async Capabilities.t :=
  DeviceCapabilityService.getDeviceCapabilities h.

Definition hasNotch (h : Host) : async bool :=
  DeviceCapabilityService.hasNotch h.

Definition getUserFriendlyId (h : Host) : async string :=
  UserFriendlyIdService.getUserFriendlyId h.

End DeviceService.

(** The self-contained [DeviceService] of [DeviceService.ts], which calls
    the native modules itself: its application snapshot, identifier and
    notch operations. *)
Module InlineDeviceService.

(** [await Promise.race([f(), timer]).catch(() => null)] inside
    [try { ... } catch { return null }], with a timer of 1000 ms.  Here the
    operation is called before the timer is set, the other way round than
    in [withTimeout]; [callFirstWins] is the event loop's choice for such a
    race when both contenders are ready in the same millisecond, which need
    not be the choice [scheduler] records for [withTimeout]. *)
Definition raceOrNull (callFirstWins : time -> bool)
  (f : thunk (option string)) : async (option string) :=
  tryCatch
    (fun now =>
       (p <- call f ;;
        await (catchWith (race callFirstWins p (rejectAfter now 1000)) None)) now)
    (ret None).

Definition getDeviceId (h : Host) (callFirstWins : time -> bool)
  : async (option string) :=
  let A := applicationModule h in
  tryCatch
    (if (OS h =? "android")%string then
       raceOrNull callFirstWins (Application.getAndroidId A)
     else if (OS h =? "ios")%string then
       raceOrNull callFirstWins (Application.getIosIdForVendorAsync A)
     else ret None)
    (ret None).

Definition getOfflineUserId (h : Host) (callFirstWins : time -> bool)
  (fallbackId : option string) : async (option string) :=
  let fallbackId :=
    match fallbackId with
    | Some f => f
    | None => "offline_user"
    end in
  if (OS h =? "web")%string then ret None
  else
    deviceId <- getDeviceId h callFirstWins ;;
    match JS.truthyStr deviceId with
    | Some id => ret (Some ("offline_" ++ id))
    | None => ret (Some fallbackId)
    end.

(** [x || 'Unknown'] on a nullable string. *)
Definition orUnknown (x : option string) : string :=
  match JS.truthyStr x with
  | Some s => s
  | None => "Unknown"
  end.

Definition minimalApplicationInfo : ApplicationInfo :=
  {| applicationName := "Unknown";
     applicationId := "Unknown";
     nativeApplicationVersion := None;
     nativeBuildVersion := None;
     installTime := None;
     lastUpdateTime := None;
     androidId := None;
     iosIdForVendor := None |}.

Definition getApplicationInfo (h : Host) : async ApplicationInfo :=
  let A := applicationModule h in
  tryCatch
    (fun now =>
       (installing <- call (Application.getInstallationTimeAsync A) ;;
        updating <- call (Application.getLastUpdateTimeAsync A) ;;
        '(installTime, lastUpdateTime) <- await (all2 now installing updating) ;;
        applicationName <- call (Application.applicationName A) ;;
        applicationId <- call (Application.applicationId A) ;;
        nativeApplicationVersion <- call (Application.nativeApplicationVersion A) ;;
        nativeBuildVersion <- call (Application.nativeBuildVersion A) ;;
        androidId <-
          (if (OS h =? "android")%string
           then p <- call (Application.getAndroidId A) ;; await p
           else ret None) ;;
        iosIdForVendor <-
          (if (OS h =? "ios")%string
           then p <- call (Application.getIosIdForVendorAsync A) ;; await p
           else ret None) ;;
        ret {| applicationName := orUnknown applicationName;
               applicationId := orUnknown applicationId;
               nativeApplicationVersion := nativeApplicationVersion;
               nativeBuildVersion := nativeBuildVersion;
               installTime := installTime;
               lastUpdateTime := lastUpdateTime;
               androidId := androidId;
               iosIdForVendor := iosIdForVendor |}) now)
    (ret minimalApplicationInfo).

(** [Device.modelName?.toLowerCase() || '']. *)
Definition lowerModelName (h : Host) : getter string :=
  fun now =>
    match Device.modelName (deviceModule h) now with
    | Thrown => Thrown
    | Returned None => Returned ""
    | Returned (Some m) => Returned (JS.toLowerCase m)
    end.

Definition hasNotch (h : Host) : async bool :=
  tryCatch
    (if (OS h =? "ios")%string then
       modelName <- call (lowerModelName h) ;;
       let hasNotch :=
         JS.includes "iphone x" modelName
         || JS.includes "iphone 1" modelName
         || JS.includes "pro" modelName in
       ret hasNotch
     else ret false)
    (ret false).

End InlineDeviceService.

(* ================================================================== *)
(** * The classification rules as the specification words them *)
(* ================================================================== *)

(** The specification speaks of a field being "known" or "absent".  The
    definitions below follow its words, reading "known" as "present"; they
    are compared with the functions of [DeviceUtils] further down. *)
Module AsWorded.
Local Open Scope Z_scope.
Import DeviceUtils.

Definition formatMemorySize (bytes : option Z) : string :=
  match bytes with
  | None => "Unknown"
  | Some b =>
      if GiB <=? b then JS.toFixed2 (inGiB b) ++ " GB"
      else JS.toFixed2 (inMiB b) ++ " MB"
  end.

Definition tierByYear (y : Z) : Tier :=
  if 2022 <=? y then high else if 2019 <=? y then mid else low.

Definition tierByMemory (m : Z) : Tier :=
  if 6 * GiB <=? m then high else if 3 * GiB <=? m then mid else low.

Definition getDeviceTier (info : DeviceInfo) : Tier :=
  match deviceYearClass info with
  | Some y => tierByYear y
  | None =>
      match totalMemory info with
      | Some m => tierByMemory m
      | None => mid
      end
  end.

Definition reasonsFor (info : DeviceInfo) (minMemoryGB : Z) : list string :=
  (if isDevice info then [] else [simulatorReason])
  ++ match totalMemory info with
     | Some m =>
         if m <? minMemoryGB * GiB
         then [memoryReason (inGiB m) minMemoryGB] else []
     | None => []
     end
  ++ match deviceYearClass info with
     | Some y => if y <? 2018 then [yearReason y] else []
     | None => []
     end.

End AsWorded.

(** The reasons each of the three checks of [meetsMinimumRequirements]
    contributes. *)
Definition deviceCheck (info : DeviceInfo) : list string :=
  if negb (isDevice info) then [DeviceUtils.simulatorReason] else [].

Definition memoryCheck (info : DeviceInfo) (minMemoryGB : Z) : list string :=
  match JS.truthyNum (totalMemory info) with
  | Some m =>
      if JS.Qltb (DeviceUtils.inGiB m) (inject_Z minMemoryGB)
      then [DeviceUtils.memoryReason (DeviceUtils.inGiB m) minMemoryGB] else []
  | None => []
  end.

Definition yearCheck (info : DeviceInfo) : list string :=
  match JS.truthyNum (deviceYearClass info) with
  | Some y => if (y <? 2018)%Z then [DeviceUtils.yearReason y] else []
  | None => []
  end.

(** A snapshot in which a zero year class or byte count is replaced by an
    absent one. *)
Definition zeroAsAbsent (info : DeviceInfo) : DeviceInfo :=
  {| brand := brand info;
     manufacturer := manufacturer info;
     modelName := modelName info;
     modelId := modelId info;
     deviceName := deviceName info;
     deviceYearClass := JS.truthyNum (deviceYearClass info);
     deviceType := deviceType info;
     isDevice := isDevice info;
     osName := osName info;
     osVersion := osVersion info;
     osBuildId := osBuildId info;
     platformApiLevel := platformApiLevel info;
     totalMemory := JS.truthyNum (totalMemory info);
     platform := platform info |}.

(* ================================================================== *)
(** * Sample inputs *)
(* ================================================================== *)

(** A snapshot of which only the classified fields are set. *)
Definition snapshot (yearClass memory : option Z) (physical : bool) : DeviceInfo :=
  {| brand := None;
     manufacturer := None;
     modelName := None;
     modelId := None;
     deviceName := None;
     deviceYearClass := yearClass;
     deviceType := None;
     isDevice := physical;
     osName := None;
     osVersion := None;
     osBuildId := None;
     platformApiLevel := None;
     totalMemory := memory;
     platform := "ios" |}.

(** The snapshot [{isDevice: false, totalMemory: 1*1024**3,
    deviceYearClass: 2016}]. *)
Definition oldSimulator : DeviceInfo :=
  snapshot (Some 2016%Z) (Some (1 * 1024 * 1024 * 1024)%Z) false.

(** A physical device that reports a year class of 0 and 8 GiB. *)
Definition zeroYearDevice : DeviceInfo :=
  snapshot (Some 0%Z) (Some (8 * 1024 * 1024 * 1024)%Z) true.

(** A physical device that reports 0 bytes of memory and no year class. *)
Definition zeroMemoryDevice : DeviceInfo :=
  snapshot None (Some 0%Z) true.

(** A physical device that reports 0 for both. *)
Definition zeroDevice : DeviceInfo :=
  snapshot (Some 0%Z) (Some 0%Z) true.

(** Operations that fulfil after [d] ms, throw when called, reject after
    [d] ms, and never settle. *)
Definition fulfilsIn {A} (d : nat) (v : A) : thunk A :=
  fun now => Returned (Settles (now + d) (Fulfilled v)).

Definition throwsWhenCalled {A} : thunk A :=
  fun _ => Thrown.

Definition rejectsIn {A} (d : nat) : thunk A :=
  fun now => Returned (Settles (now + d) Rejected).

Definition neverSettles {A} : thunk A :=
  fun _ => Returned Pending.

(** Property reads that return a value, return [null], and throw. *)
Definition reads {A} (v : A) : getter (option A) :=
  fun _ => Returned (Some v).

Definition readsNull {A} : getter (option A) :=
  fun _ => Returned None.

Definition readThrows {A} : getter (option A) :=
  fun _ => Thrown.

(** A batch whose first operation fulfils with 5 after 10 ms and whose
    second operation throws when called. *)
Definition throwingBatch : list (thunk (option Z)) :=
  [fulfilsIn 10 (Some 5%Z); throwsWhenCalled].

(** A batch of three operations that settle within 20 ms, the second by
    rejecting. *)
Definition quickBatch : list (thunk (option Z)) :=
  [fulfilsIn 10 (Some 5%Z); rejectsIn 20; fulfilsIn 5 (Some 3%Z)].

(** A batch whose second operation never settles. *)
Definition stuckBatch : list (thunk (option Z)) :=
  [fulfilsIn 10 (Some 5%Z); neverSettles].

(** An [expo-device] module of which the brand, the model name and the
    memory call behave as given and every other property reads a value. *)
Definition deviceModuleWith (brand modelName : getter (option string))
  (getMaxMemoryAsync : thunk (option Z)) : Device.t :=
  {| Device.DeviceType_TABLET := fun _ => Returned (IsValue TABLET);
     Device.brand := brand;
     Device.manufacturer := reads "Acme";
     Device.modelName := modelName;
     Device.modelId := reads "model-1";
     Device.deviceName := reads "Phone";
     Device.deviceYearClass := reads 2021%Z;
     Device.deviceType := reads PHONE;
     Device.isDevice := reads true;
     Device.osName := reads "OS";
     Device.osVersion := reads "17.0";
     Device.osBuildId := reads "21A";
     Device.platformApiLevel := readsNull;
     Device.getMaxMemoryAsync := getMaxMemoryAsync |}.

(** An [expo-application] module whose identifier calls behave as given. *)
Definition applicationModuleWith (getId : thunk (option string)) : Application.t :=
  {| Application.applicationName := reads "App";
     Application.applicationId := reads "com.example.app";
     Application.nativeApplicationVersion := reads "1.0.0";
     Application.nativeBuildVersion := reads "42";
     Application.getInstallationTimeAsync := fulfilsIn 5 (Some 1700000000000%Z);
     Application.getLastUpdateTimeAsync := fulfilsIn 5 (Some 1700000000000%Z);
     Application.getAndroidId := getId;
     Application.getIosIdForVendorAsync := getId |}.

(** An iOS host whose model name is ["iPhone 13 Pro!"] and whose
    identifier, ending in ["xyzABC"], arrives after 30 ms. *)
Definition iPhoneHost : Host :=
  {| OS := "ios";
     deviceModule :=
       deviceModuleWith (reads "Apple") (reads "iPhone 13 Pro!")
         (fulfilsIn 20 (Some (4 * 1024 * 1024 * 1024)%Z));
     applicationModule := applicationModuleWith (fulfilsIn 30 (Some "A1B2C3-xyzABC"));
     random36 := fun _ => "0.4fzyo82mvyr";
     scheduler := fun _ => true |}.

(** An Android host on which reading the brand throws while the model
    name reads ["Pixel 7"]. *)
Definition halfReadyHost : Host :=
  {| OS := "android";
     deviceModule :=
       deviceModuleWith readThrows (reads "Pixel 7")
         (fulfilsIn 20 (Some (8 * 1024 * 1024 * 1024)%Z));
     applicationModule := applicationModuleWith (fulfilsIn 30 (Some "9774d56d682e549c"));
     random36 := fun _ => "0.4fzyo82mvyr";
     scheduler := fun _ => true |}.

(** An Android host whose identifier call never settles. *)
Definition stuckIdHost : Host :=
  {| OS := "android";
     deviceModule :=
       deviceModuleWith (reads "Google") (reads "Pixel 7")
         (fulfilsIn 20 (Some (8 * 1024 * 1024 * 1024)%Z));
     applicationModule := applicationModuleWith neverSettles;
     random36 := fun _ => "0.4fzyo82mvyr";
     scheduler := fun _ => true |}.

(** A web host. *)
Definition webHost : Host :=
  {| OS := "web";
     deviceModule := deviceModuleWith readsNull readsNull throwsWhenCalled;
     applicationModule := applicationModuleWith throwsWhenCalled;
     random36 := fun _ => "0.4fzyo82mvyr";
     scheduler := fun _ => true |}.

(** A host on which nothing of [expo-device] is ready. *)
Definition unreadyDevice : Device.t :=
  {| Device.DeviceType_TABLET := fun _ => Thrown;
     Device.brand := readThrows;
     Device.manufacturer := readThrows;
     Device.modelName := readThrows;
     Device.modelId := readThrows;
     Device.deviceName := readThrows;
     Device.deviceYearClass := readThrows;
     Device.deviceType := readThrows;
     Device.isDevice := readThrows;
     Device.osName := readThrows;
     Device.osVersion := readThrows;
     Device.osBuildId := readThrows;
     Device.platformApiLevel := readThrows;
     Device.getMaxMemoryAsync := neverSettles |}.

Definition unreadyHost : Host :=
  {| OS := "ios";
     deviceModule := unreadyDevice;
     applicationModule := applicationModuleWith neverSettles;
     random36 := fun _ => "0.4fzyo82mvyr";
     scheduler := fun _ => false |}.

(** An iOS host whose installation-time call never settles and whose
    other calls and reads all succeed. *)
Definition stuckInstallHost : Host :=
  {| OS := "ios";
     deviceModule :=
       deviceModuleWith (reads "Apple") (reads "iPad Pro")
         (fulfilsIn 20 (Some (8 * 1024 * 1024 * 1024)%Z));
     applicationModule :=
       {| Application.applicationName := reads "App";
          Application.applicationId := reads "com.example.app";
          Application.nativeApplicationVersion := reads "1.0.0";
          Application.nativeBuildVersion := reads "42";
          Application.getInstallationTimeAsync := neverSettles;
          Application.getLastUpdateTimeAsync := fulfilsIn 5 (Some 1700000000000%Z);
          Application.getAndroidId := fulfilsIn 30 (Some "id");
          Application.getIosIdForVendorAsync := fulfilsIn 30 (Some "ABCD-1234") |};
     random36 := fun _ => "0.4fzyo82mvyr";
     scheduler := fun _ => true |}.

(* ================================================================== *)
(** * Predicates of the statements *)
(* ================================================================== *)

(** An [async] body that, from whatever time it is started, fulfils no
    later than [d] ms after: it neither rejects nor stays pending. *)
Definition resolvesWithin {A} (d : nat) (m : async A) : Prop :=
  forall now, exists t v,
    m now = Settles t (Fulfilled v) /\ now <= t <= now + d.

(** The entry of [withTimeoutAll]'s result for an operation whose promise
    is [p]: its value, [null] when it rejects. *)
Definition resultOrNull {T} (p : promise (option T)) : option T :=
  match p with
  | Settles _ (Fulfilled v) => v
  | _ => None
  end.

(** The operations return, in order, the promises [ps] when called at
    [now]; none throws. *)
Definition returnsAll {T} (operations : list (thunk (option T))) (now : time)
  (ps : list (promise (option T))) : Prop :=
  Forall2 (fun op p => op now = Returned p) operations ps.

(** [p] has not settled by time [t]. *)
Definition unsettledAt {A} (t : time) (p : promise A) : Prop :=
  match p with
  | Settles tp _ => t < tp
  | Pending => True
  end.

(** [p] settles before time [t]. *)
Definition settledBefore {A} (t : time) (p : promise A) : Prop :=
  match p with
  | Settles tp _ => tp < t
  | Pending => False
  end.

(** The entry the specification words for an operation: its result, or
    [null] for an operation that throws, be it when called or through its
    promise. *)
Definition entryAsWorded {T} (c : completion (promise (option T))) : option T :=
  match c with
  | Returned (Settles _ (Fulfilled v)) => v
  | _ => None
  end.

(** A nullable field [x] of a snapshot against the read of its property:
    the value read, or [null] when the read returns [null] or throws. *)
Definition fieldOf {A} (read : completion (option A)) (x : option A) : Prop :=
  match read with
  | Returned (Some v) => x = Some v
  | Returned None => x = None
  | Thrown => x = None
  end.

(** The same for the flag [isDevice], whose default is [false]. *)
Definition flagOf (read : completion (option bool)) (x : bool) : Prop :=
  match read with
  | Returned (Some v) => x = v
  | Returned None => x = false
  | Thrown => x = false
  end.

(** The field [totalMemory] against the memory call made at [called]: the
    value of a promise that fulfils before the timer of 1000 ms, [null]
    when the call throws, when the promise rejects, when it is not settled
    by then. *)
Definition memoryOf (called : time) (c : completion (promise (option Z)))
  (x : option Z) : Prop :=
  match c with
  | Returned (Settles tm (Fulfilled v)) =>
      (tm < called + 1000 -> x = v) /\ (called + 1000 < tm -> x = None)
  | Returned (Settles _ Rejected) => x = None
  | Returned Pending => x = None
  | Thrown => x = None
  end.

(** The memory call made at [called] yields nothing within 1000 ms. *)
Definition memoryFails (called : time) (c : completion (promise (option Z)))
  : Prop :=
  match c with
  | Returned (Settles tm (Fulfilled _)) => called + 1000 < tm
  | _ => True
  end.

(** Every property read of [expo-device] throws at time [t]. *)
Definition everyReadThrows (D : Device.t) (t : time) : Prop :=
  Device.brand D t = Thrown /\
  Device.manufacturer D t = Thrown /\
  Device.modelName D t = Thrown /\
  Device.modelId D t = Thrown /\
  Device.deviceName D t = Thrown /\
  Device.deviceYearClass D t = Thrown /\
  Device.deviceType D t = Thrown /\
  Device.isDevice D t = Thrown /\
  Device.osName D t = Thrown /\
  Device.osVersion D t = Thrown /\
  Device.osBuildId D t = Thrown /\
  Device.platformApiLevel D t = Thrown.

(** The snapshot [d], delivered at [t] for a call made at [called], is
    fully populated with provider values: every read returned the field
    and the memory call fulfilled with it. *)
Definition fullyPopulated (h : Host) (called t : time) (d : DeviceInfo) : Prop :=
  let D := deviceModule h in
  Device.brand D t = Returned (brand d) /\
  Device.manufacturer D t = Returned (manufacturer d) /\
  Device.modelName D t = Returned (modelName d) /\
  Device.modelId D t = Returned (modelId d) /\
  Device.deviceName D t = Returned (deviceName d) /\
  Device.deviceYearClass D t = Returned (deviceYearClass d) /\
  Device.deviceType D t = Returned (deviceType d) /\
  Device.isDevice D t = Returned (Some (isDevice d)) /\
  Device.osName D t = Returned (osName d) /\
  Device.osVersion D t = Returned (osVersion d) /\
  Device.osBuildId D t = Returned (osBuildId d) /\
  Device.platformApiLevel D t = Returned (platformApiLevel d) /\
  (exists tm, Device.getMaxMemoryAsync D called
              = Returned (Settles tm (Fulfilled (totalMemory d)))) /\
  platform d = OS h.

(** The property the specification words for [getDeviceInfo]: the
    snapshot is fully populated or entirely defaulted, never a mix. *)
Definition neverPartiallyFilled (h : Host) (called : time) : Prop :=
  forall t d,
    DeviceInfoService.getDeviceInfo h called = Settles t (Fulfilled d) ->
    fullyPopulated h called t d \/ d = DeviceInfoService.getMinimalDeviceInfo h.

(** [s] matches [^iPhone13Pro-[A-Z0-9]{6}$]. *)
Definition matchesIPhone13ProLabel (s : string) : bool :=
  let head := "iPhone13Pro-" in
  let tail := JS.substringFrom (String.length head) s in
  String.prefix head s
  && (String.length tail =? 6)%nat
  && JS.allStr (fun c => JS.isUpper c || JS.isDigit c) tail.

(** [s] holds no lower-case letter. *)
Definition noLower (s : string) : bool :=
  JS.allStr (fun c => negb (JS.isLower c)) s.

(** [s] holds no letter or digit. *)
Definition noAlnum (s : string) : bool :=
  JS.allStr (fun c => negb (JS.isAlnum c)) s.

(** The tiers in increasing order. *)
Definition tierRank (t : DeviceUtils.Tier) : nat :=
  match t with
  | DeviceUtils.low => 0
  | DeviceUtils.mid => 1
  | DeviceUtils.high => 2
  end.

(** [s] holds ASCII characters only.  On such strings the embedding's
    [String.length] is the length and [JS.toUpperCase] the case mapping of
    JavaScript. *)
Definition isAscii (s : string) : bool :=
  JS.allStr (fun c => (nat_of_ascii c <? 128)%nat) s.

(** An integer a JavaScript number holds exactly: below 2^53 in
    magnitude. *)
Definition safeInteger (n : Z) : Prop :=
  (- 2 ^ 53 < n < 2 ^ 53)%Z.

(** The promise [p] does not settle in the very millisecond [t]. *)
Definition notSettlingAt {A} (t : time) (p : promise A) : Prop :=
  match p with
  | Settles tp _ => tp <> t
  | Pending => True
  end.

(** None of the identifier calls made at [now] returns a promise that
    settles in the millisecond in which a timer of 1000 ms set at [now]
    fires. *)
Definition noIdentifierTie (h : Host) (now : time) : Prop :=
  forall p,
    Application.getAndroidId (applicationModule h) now = Returned p
    \/ Application.getIosIdForVendorAsync (applicationModule h) now = Returned p ->
    notSettlingAt (now + 1000) p.

(** A nullable string that is [null] or empty. *)
Definition blank (x : option string) : Prop :=
  x = None \/ x = Some "".

(* ================================================================== *)
(** * Properties of the classification functions *)
(* ================================================================== *)

Section Classification.
Import DeviceUtils.
Local Open Scope Z_scope.

Lemma Qgeb_inGiB (b k : Z) :
  JS.Qgeb (inGiB b) (inject_Z k) = (k * GiB <=? b).
Proof.
  unfold JS.Qgeb, Qle_bool, inGiB, GiB; simpl.
  destruct (Z.leb_spec (k * 1073741824) (b * 1 * 1));
    destruct (Z.leb_spec (k * 1073741824) b); try reflexivity; lia.
Qed.

Lemma Qltb_inGiB (b k : Z) :
  JS.Qltb (inGiB b) (inject_Z k) = (b <? k * GiB).
Proof.
  unfold JS.Qltb. change (Qle_bool (inject_Z k) (inGiB b))
    with (JS.Qgeb (inGiB b) (inject_Z k)).
  rewrite Qgeb_inGiB. rewrite Z.ltb_antisym. reflexivity.
Qed.

Lemma truthyNum_some (x : option Z) (v : Z) :
  JS.truthyNum x = Some v <-> x = Some v /\ v <> 0.
Proof.
  unfold JS.truthyNum. destruct x as [w|].
  - destruct (Z.eqb_spec w 0); split.
    + discriminate.
    + intros [E N]. inversion E; subst. contradiction.
    + intros E. inversion E; subst. auto.
    + intros [E _]. exact E.
  - split; [discriminate | intros [E _]; discriminate].
Qed.

Lemma truthyNum_none (x : option Z) :
  JS.truthyNum x = None <-> x = None \/ x = Some 0.
Proof.
  unfold JS.truthyNum. destruct x as [w|].
  - destruct (Z.eqb_spec w 0); split.
    + subst; auto.
    + reflexivity.
    + discriminate.
    + intros [E | E]; [discriminate | inversion E; contradiction].
  - split; auto.
Qed.

Lemma truthyNum_idem (x : option Z) :
  JS.truthyNum (JS.truthyNum x) = JS.truthyNum x.
Proof.
  unfold JS.truthyNum. destruct x as [w|]; [|reflexivity].
  destruct (Z.eqb_spec w 0) as [E|E]; [reflexivity|].
  destruct (Z.eqb_spec w 0); [contradiction | reflexivity].
Qed.

(** The functions of [DeviceUtils] are the worded rules applied after a
    zero has been replaced by an absent value. *)
Lemma formatMemorySize_worded (bytes : option Z) :
  formatMemorySize bytes = AsWorded.formatMemorySize (JS.truthyNum bytes).
Proof.
  unfold formatMemorySize, AsWorded.formatMemorySize.
  destruct (JS.truthyNum bytes) as [b|]; [|reflexivity].
  change 1%Q with (inject_Z 1). rewrite Qgeb_inGiB.
  rewrite Z.mul_1_l. reflexivity.
Qed.

Lemma getDeviceTier_worded (info : DeviceInfo) :
  getDeviceTier info = AsWorded.getDeviceTier (zeroAsAbsent info).
Proof.
  unfold getDeviceTier, AsWorded.getDeviceTier, zeroAsAbsent; simpl.
  destruct (JS.truthyNum (deviceYearClass info)) as [y|].
  - unfold AsWorded.tierByYear. rewrite !Z.geb_leb. reflexivity.
  - destruct (JS.truthyNum (totalMemory info)) as [m|]; [|reflexivity].
    unfold AsWorded.tierByMemory.
    change 6%Q with (inject_Z 6). change 3%Q with (inject_Z 3).
    rewrite !Qgeb_inGiB. reflexivity.
Qed.

(** The reasons are those of the three checks, in the order of the
    source. *)
Lemma reasons_split (info : DeviceInfo) (minMemoryGB : Z) :
  reasons (meetsMinimumRequirements info minMemoryGB)
  = (deviceCheck info ++ memoryCheck info minMemoryGB ++ yearCheck info)%list.
Proof.
  unfold meetsMinimumRequirements, deviceCheck, memoryCheck, yearCheck, push;
    simpl.
  destruct (isDevice info); simpl;
    destruct (JS.truthyNum (totalMemory info)) as [m|];
    try destruct (JS.Qltb (inGiB m) (inject_Z minMemoryGB));
    destruct (JS.truthyNum (deviceYearClass info)) as [y|];
    try destruct (y <? 2018); reflexivity.
Qed.

Lemma reasons_worded (info : DeviceInfo) (minMemoryGB : Z) :
  reasons (meetsMinimumRequirements info minMemoryGB)
  = AsWorded.reasonsFor (zeroAsAbsent info) minMemoryGB.
Proof.
  rewrite reasons_split.
  unfold AsWorded.reasonsFor, zeroAsAbsent; simpl.
  unfold deviceCheck, memoryCheck, yearCheck.
  destruct (isDevice info); simpl;
    destruct (JS.truthyNum (totalMemory info)) as [m|];
    try rewrite Qltb_inGiB; reflexivity.
Qed.

(** What [toFixed(2)] prints for a non-negative quotient [n / d]: the
    hundredths [k] nearest to it, [2 d k <= 200 n + d < 2 d (k + 1)]. *)
Lemma toFixed2_nearest (n : Z) (d : positive) :
  0 <= n ->
  exists k,
    JS.toFixed2 (n # d)
      = JS.numToString (k / 100) ++ "." ++ JS.twoDigits (k mod 100)
    /\ 2 * Zpos d * k <= 200 * n + Zpos d < 2 * Zpos d * (k + 1).
Proof.
  intros Hn. exists ((n * 100 * 2 + Zpos d) / (Zpos d * 2)). split.
  - unfold JS.toFixed2.
    assert (Qle_bool 0 (n # d) = true) as ->.
    { apply Qle_bool_iff. unfold Qle; simpl. lia. }
    unfold JS.toFixed2Abs.
    assert (Qfloor ((n # d) * 100 + (1 # 2))
            = (n * 100 * 2 + Zpos d) / (Zpos d * 2)) as ->; [|reflexivity].
    unfold Qfloor, Qplus, Qmult; simpl.
    rewrite Pos.mul_1_r. reflexivity.
  - pose proof (Z.div_mod (n * 100 * 2 + Zpos d) (Zpos d * 2) ltac:(lia)) as E.
    pose proof (Z.mod_pos_bound (n * 100 * 2 + Zpos d) (Zpos d * 2) ltac:(lia)) as B.
    nia.
Qed.

(** ** C7 *)

(** C7, as the code has it, for an input that is absent or an integer
    byte count a number holds exactly (below 2^53 in magnitude):
    [formatMemorySize] yields ["Unknown"] for an absent value and for a
    byte count of 0; for a non-zero byte count of at least 1 GiB (1024^3)
    the GiB value to 2 decimals followed by [" GB"]; for any other non-zero
    byte count the MiB value to 2 decimals followed by [" MB"].  In
    particular 1073741824 gives ["1.00 GB"], 536870912 gives ["512.00 MB"]
    and [null] gives ["Unknown"]. *)
Theorem formatMemorySize_spec :
  formatMemorySize None = "Unknown" /\
  formatMemorySize (Some 0) = "Unknown" /\
  (forall b, b <> 0 -> safeInteger b -> GiB <= b ->
     formatMemorySize (Some b) = JS.toFixed2 (inGiB b) ++ " GB") /\
  (forall b, b <> 0 -> safeInteger b -> b < GiB ->
     formatMemorySize (Some b) = JS.toFixed2 (inMiB b) ++ " MB") /\
  formatMemorySize (Some 1073741824) = "1.00 GB" /\
  formatMemorySize (Some 536870912) = "512.00 MB".
Proof.
  repeat split; try reflexivity.
  - intros b Hb _ Hge. rewrite formatMemorySize_worded.
    assert (JS.truthyNum (Some b) = Some b) as ->
      by (apply truthyNum_some; auto).
    unfold AsWorded.formatMemorySize.
    destruct (Z.leb_spec GiB b); [reflexivity | lia].
  - intros b Hb _ Hlt. rewrite formatMemorySize_worded.
    assert (JS.truthyNum (Some b) = Some b) as ->
      by (apply truthyNum_some; auto).
    unfold AsWorded.formatMemorySize.
    destruct (Z.leb_spec GiB b); [lia | reflexivity].
Qed.

Lemma formatMemorySize_spec_witness :
  formatMemorySize (Some 1610612736) = JS.toFixed2 (inGiB 1610612736) ++ " GB"
  /\ formatMemorySize (Some 5368709) = JS.toFixed2 (inMiB 5368709) ++ " MB".
Proof.
  split.
  - apply (proj1 (proj2 (proj2 formatMemorySize_spec)) 1610612736).
    + discriminate.
    + unfold safeInteger; lia.
    + unfold GiB; lia.
  - apply (proj1 (proj2 (proj2 (proj2 formatMemorySize_spec))) 5368709).
    + discriminate.
    + unfold safeInteger; lia.
    + unfold GiB; lia.
Defined.

(** C7 as worded fails on the code: a byte count of 0 is not absent and is
    below 1 GiB, so the worded rule prints its MiB value, ["0.00 MB"]; the
    code returns ["Unknown"]. *)
Lemma formatMemorySize_zero_counterexample :
  AsWorded.formatMemorySize (Some 0) = "0.00 MB" /\
  formatMemorySize (Some 0) = "Unknown" /\
  formatMemorySize (Some 0) <> AsWorded.formatMemorySize (Some 0).
Proof.
  repeat split; try reflexivity. discriminate.
Qed.

(** ** C5 *)

(** C5, as the code has it: when [deviceYearClass] is present and not 0 the
    tier is ["high"] from 2022, ["mid"] from 2019 and ["low"] below,
    whatever the memory; otherwise, when [totalMemory] is present and not 0,
    ["high"] from 6 GiB, ["mid"] from 3 GiB and ["low"] below; otherwise
    ["mid"].  The three examples of the specification hold. *)
Theorem getDeviceTier_spec (info : DeviceInfo) :
  (forall y, deviceYearClass info = Some y -> y <> 0 ->
     getDeviceTier info
     = if 2022 <=? y then high else if 2019 <=? y then mid else low) /\
  (forall m, deviceYearClass info = None \/ deviceYearClass info = Some 0 ->
     totalMemory info = Some m -> m <> 0 ->
     getDeviceTier info
     = if 6 * GiB <=? m then high else if 3 * GiB <=? m then mid else low) /\
  (deviceYearClass info = None \/ deviceYearClass info = Some 0 ->
   totalMemory info = None \/ totalMemory info = Some 0 ->
   getDeviceTier info = mid) /\
  (forall physical, getDeviceTier (snapshot (Some 2023) None physical) = high) /\
  (forall physical,
     getDeviceTier (snapshot None (Some (2 * 1024 * 1024 * 1024)) physical) = low) /\
  (forall physical, getDeviceTier (snapshot None None physical) = mid).
Proof.
  repeat split; try (intros; reflexivity).
  - intros y Hy Hnz. rewrite getDeviceTier_worded.
    unfold AsWorded.getDeviceTier, zeroAsAbsent; simpl.
    assert (JS.truthyNum (deviceYearClass info) = Some y) as ->
      by (apply truthyNum_some; auto).
    reflexivity.
  - intros m Hy Hm Hnz. rewrite getDeviceTier_worded.
    unfold AsWorded.getDeviceTier, zeroAsAbsent; simpl.
    assert (JS.truthyNum (deviceYearClass info) = None) as ->
      by (apply truthyNum_none; auto).
    assert (JS.truthyNum (totalMemory info) = Some m) as ->
      by (apply truthyNum_some; auto).
    reflexivity.
  - intros Hy Hm. rewrite getDeviceTier_worded.
    unfold AsWorded.getDeviceTier, zeroAsAbsent; simpl.
    assert (JS.truthyNum (deviceYearClass info) = None) as ->
      by (apply truthyNum_none; auto).
    assert (JS.truthyNum (totalMemory info) = None) as ->
      by (apply truthyNum_none; auto).
    reflexivity.
Qed.

Lemma getDeviceTier_spec_witness :
  getDeviceTier oldSimulator = low
  /\ getDeviceTier zeroYearDevice = high
  /\ getDeviceTier zeroDevice = mid.
Proof.
  split; [|split].
  - apply (proj1 (getDeviceTier_spec oldSimulator) 2016).
    + reflexivity.
    + discriminate.
  - apply (proj1 (proj2 (getDeviceTier_spec zeroYearDevice)) (8 * 1024 * 1024 * 1024)).
    + right; reflexivity.
    + reflexivity.
    + discriminate.
  - apply (proj1 (proj2 (proj2 (getDeviceTier_spec zeroDevice)))).
    + right; reflexivity.
    + right; reflexivity.
Defined.

(** C5 as worded fails on the code: with a year class of 0, which is
    present and below 2019, the worded rule answers ["low"] and ignores the
    memory; the code classifies by the 8 GiB of memory and answers
    ["high"]. *)
Lemma getDeviceTier_zero_year_counterexample :
  deviceYearClass zeroYearDevice = Some 0 /\
  AsWorded.getDeviceTier zeroYearDevice = low /\
  getDeviceTier zeroYearDevice = high /\
  getDeviceTier zeroYearDevice <> AsWorded.getDeviceTier zeroYearDevice.
Proof.
  repeat split; try reflexivity. discriminate.
Qed.

(** ** C6 *)

Lemma meets_iff_no_reason (info : DeviceInfo) (minMemoryGB : Z) :
  meets (meetsMinimumRequirements info minMemoryGB) = true
  <-> reasons (meetsMinimumRequirements info minMemoryGB) = [].
Proof.
  unfold meetsMinimumRequirements; simpl.
  match goal with
  | |- (List.length ?l =? 0)%nat = true <-> _ =>
      destruct l; simpl; split; auto; discriminate
  end.
Qed.

(** C6, as the code has it: [meets] is true exactly when [reasons] is
    empty, and [reasons] holds, in this order, one reason for each of: the
    snapshot is not a physical device; the memory is present, not 0 and
    below [minMemoryGB] GiB; the year class is present, not 0 and below
    2018.  The snapshot [{isDevice: false, totalMemory: 1 GiB,
    deviceYearClass: 2016}] with threshold 2 has [meets = false] and
    exactly 3 reasons. *)
Theorem meetsMinimumRequirements_spec (info : DeviceInfo) (minMemoryGB : Z) :
  (meets (meetsMinimumRequirements info minMemoryGB) = true
   <-> reasons (meetsMinimumRequirements info minMemoryGB) = []) /\
  reasons (meetsMinimumRequirements info minMemoryGB)
  = ((if isDevice info then [] else [simulatorReason])
     ++ match totalMemory info with
        | Some m =>
            if negb (m =? 0) && (m <? minMemoryGB * GiB)
            then [memoryReason (inGiB m) minMemoryGB] else []
        | None => []
        end
     ++ match deviceYearClass info with
        | Some y =>
            if negb (y =? 0) && (y <? 2018) then [yearReason y] else []
        | None => []
        end)%list /\
  meetsMinimumRequirementsDefault info = meetsMinimumRequirements info 1 /\
  meets (meetsMinimumRequirements oldSimulator 2) = false /\
  reasons (meetsMinimumRequirements oldSimulator 2)
  = [ "Running on simulator/emulator";
      "Insufficient memory: 1.00GB (minimum: 2GB)";
      "Device too old: 2016 (minimum: 2018)" ] /\
  List.length (reasons (meetsMinimumRequirements oldSimulator 2)) = 3%nat.
Proof.
  split; [apply meets_iff_no_reason|].
  split; [|repeat split; reflexivity].
  rewrite reasons_worded.
  unfold AsWorded.reasonsFor, zeroAsAbsent, JS.truthyNum; simpl.
  destruct (isDevice info); simpl;
    destruct (totalMemory info) as [m|]; simpl;
    try destruct (m =? 0); simpl;
    destruct (deviceYearClass info) as [y|]; simpl;
    try destruct (y =? 0); simpl; reflexivity.
Qed.

(** C6 as worded fails on the code: a memory of 0 bytes is present and
    below 1 GiB, so the worded rule accumulates the insufficient-memory
    reason; the code accumulates none and reports [meets = true]. *)
Lemma meetsMinimumRequirements_zero_memory_counterexample :
  totalMemory zeroMemoryDevice = Some 0 /\
  AsWorded.reasonsFor zeroMemoryDevice 1
  = ["Insufficient memory: 0.00GB (minimum: 1GB)"] /\
  reasons (meetsMinimumRequirements zeroMemoryDevice 1) = [] /\
  meets (meetsMinimumRequirements zeroMemoryDevice 1) = true /\
  reasons (meetsMinimumRequirements zeroMemoryDevice 1)
  <> AsWorded.reasonsFor zeroMemoryDevice 1.
Proof.
  repeat split; try reflexivity. discriminate.
Qed.

(** ** C10 *)

Lemma reasons_in (info : DeviceInfo) (minMemoryGB : Z) (r : string) :
  In r (reasons (meetsMinimumRequirements info minMemoryGB)) ->
  In r (deviceCheck info) \/ In r (memoryCheck info minMemoryGB)
  \/ In r (yearCheck info).
Proof.
  rewrite reasons_split. intros H.
  apply in_app_or in H. destruct H as [H|H]; [auto|].
  apply in_app_or in H. tauto.
Qed.

Lemma deviceCheck_prefix (info : DeviceInfo) (r : string) :
  In r (deviceCheck info) -> String.prefix "Running on" r = true.
Proof.
  unfold deviceCheck. destruct (negb (isDevice info)); simpl; [|tauto].
  intros [<-|[]]. reflexivity.
Qed.

Lemma memoryCheck_prefix (info : DeviceInfo) (minMemoryGB : Z) (r : string) :
  In r (memoryCheck info minMemoryGB) ->
  String.prefix "Insufficient memory" r = true.
Proof.
  unfold memoryCheck. destruct (JS.truthyNum (totalMemory info)); simpl; [|tauto].
  destruct (JS.Qltb _ _); simpl; [|tauto].
  intros [<-|[]]. reflexivity.
Qed.

Lemma yearCheck_prefix (info : DeviceInfo) (r : string) :
  In r (yearCheck info) -> String.prefix "Device too old" r = true.
Proof.
  unfold yearCheck. destruct (JS.truthyNum (deviceYearClass info)); simpl; [|tauto].
  destruct (_ <? _); simpl; [|tauto].
  intros [<-|[]]. reflexivity.
Qed.

Lemma prefix_first_char (a b : ascii) (p q r : string) :
  a <> b -> String.prefix (String a p) r = true ->
  String.prefix (String b q) r = false.
Proof.
  intros Hab Hp. destruct r as [|c r]; [reflexivity|].
  simpl in *. destruct (ascii_dec a c) as [->|]; [|discriminate].
  destruct (ascii_dec b c) as [->|]; [contradiction | reflexivity].
Qed.

(** C10: every classification function treats a numeric field equal to 0
    as it treats an absent one.  [formatMemorySize(0)] is ["Unknown"]; a
    snapshot with year class 0 and memory 0 is tier ["mid"]; with memory 0
    no insufficient-memory reason is produced, whatever the threshold; with
    year class 0 no device-too-old reason is produced; and each of the
    three functions gives the same result when a 0 is replaced by an absent
    value. *)
Theorem zero_treated_as_absent :
  formatMemorySize (Some 0) = "Unknown" /\
  (forall info, deviceYearClass info = Some 0 -> totalMemory info = Some 0 ->
     getDeviceTier info = mid) /\
  (forall info minMemoryGB r, totalMemory info = Some 0 ->
     In r (reasons (meetsMinimumRequirements info minMemoryGB)) ->
     String.prefix "Insufficient memory" r = false) /\
  (forall info minMemoryGB r, deviceYearClass info = Some 0 ->
     In r (reasons (meetsMinimumRequirements info minMemoryGB)) ->
     String.prefix "Device too old" r = false) /\
  (forall bytes, formatMemorySize (JS.truthyNum bytes) = formatMemorySize bytes) /\
  (forall info, getDeviceTier (zeroAsAbsent info) = getDeviceTier info) /\
  (forall info minMemoryGB,
     meetsMinimumRequirements (zeroAsAbsent info) minMemoryGB
     = meetsMinimumRequirements info minMemoryGB).
Proof.
  split; [reflexivity|].
  split.
  { intros info Hy Hm. unfold getDeviceTier. rewrite Hy, Hm. reflexivity. }
  split.
  { intros info minMemoryGB r Hm Hin.
    apply reasons_in in Hin. destruct Hin as [H|[H|H]].
    - apply deviceCheck_prefix in H.
      eapply prefix_first_char; [|exact H]. discriminate.
    - unfold memoryCheck in H. rewrite Hm in H. destruct H.
    - apply yearCheck_prefix in H.
      eapply prefix_first_char; [|exact H]. discriminate. }
  split.
  { intros info minMemoryGB r Hy Hin.
    apply reasons_in in Hin. destruct Hin as [H|[H|H]].
    - apply deviceCheck_prefix in H.
      eapply prefix_first_char; [|exact H]. discriminate.
    - apply memoryCheck_prefix in H.
      eapply prefix_first_char; [|exact H]. discriminate.
    - unfold yearCheck in H. rewrite Hy in H. destruct H. }
  split.
  { intros bytes. unfold formatMemorySize. rewrite truthyNum_idem. reflexivity. }
  split.
  { intros info. unfold getDeviceTier, zeroAsAbsent; simpl.
    rewrite !truthyNum_idem. reflexivity. }
  intros info minMemoryGB.
  unfold meetsMinimumRequirements, zeroAsAbsent; simpl.
  rewrite !truthyNum_idem. reflexivity.
Qed.

Lemma zero_treated_as_absent_witness :
  getDeviceTier zeroDevice = mid
  /\ String.prefix "Insufficient memory" "Running on simulator/emulator" = false
  /\ String.prefix "Device too old" "Running on simulator/emulator" = false.
Proof.
  split; [|split].
  - apply (proj1 (proj2 zero_treated_as_absent) zeroDevice); reflexivity.
  - apply (proj1 (proj2 (proj2 zero_treated_as_absent))
             (snapshot (Some 0) (Some 0) false) 1).
    + reflexivity.
    + simpl. left. reflexivity.
  - apply (proj1 (proj2 (proj2 (proj2 zero_treated_as_absent)))
             (snapshot (Some 0) (Some 0) false) 1).
    + reflexivity.
    + simpl. left. reflexivity.
Defined.

End Classification.

(* ================================================================== *)
(** * Properties of the guarded call primitives *)
(* ================================================================== *)

Section GuardedCalls.

Variable firstWins : time -> bool.

(** ** C2 *)

Lemma withTimeout_in_time {T} (op : thunk (option T)) (timeoutMs : nat)
  (now t : time) (v : option T) :
  op now = Returned (Settles t (Fulfilled v)) ->
  t < now + timeoutMs ->
  withTimeout firstWins op timeoutMs now = Settles (Nat.max now t) (Fulfilled v).
Proof.
  intros E Hlt.
  unfold withTimeout, tryCatch, bind, call, await, race, rejectAfter, ret.
  rewrite E. destruct (Nat.ltb_spec t (now + timeoutMs)); [reflexivity | lia].
Qed.

Lemma withTimeout_thrown {T} (op : thunk (option T)) (timeoutMs : nat)
  (now : time) :
  op now = Thrown ->
  withTimeout firstWins op timeoutMs now = Settles now (Fulfilled None).
Proof.
  intros E.
  unfold withTimeout, tryCatch, bind, call, await, race, rejectAfter, ret.
  rewrite E. reflexivity.
Qed.

Lemma withTimeout_rejected {T} (op : thunk (option T)) (timeoutMs : nat)
  (now t : time) :
  op now = Returned (Settles t Rejected) ->
  exists t', withTimeout firstWins op timeoutMs now = Settles t' (Fulfilled None).
Proof.
  intros E.
  unfold withTimeout, tryCatch, bind, call, await, race, rejectAfter, ret.
  rewrite E.
  destruct (Nat.ltb_spec t (now + timeoutMs)); [eauto|].
  destruct (Nat.ltb_spec (now + timeoutMs) t); [eauto|].
  destruct (firstWins t); eauto.
Qed.

Lemma withTimeout_late {T} (op : thunk (option T)) (timeoutMs : nat)
  (now t : time) (o : outcome (option T)) :
  op now = Returned (Settles t o) ->
  now + timeoutMs < t ->
  withTimeout firstWins op timeoutMs now
  = Settles (now + timeoutMs) (Fulfilled None).
Proof.
  intros E Hlt.
  unfold withTimeout, tryCatch, bind, call, await, race, rejectAfter, ret.
  rewrite E.
  destruct (Nat.ltb_spec t (now + timeoutMs)); [lia|].
  destruct (Nat.ltb_spec (now + timeoutMs) t); [|lia].
  f_equal. lia.
Qed.

Lemma withTimeout_pending {T} (op : thunk (option T)) (timeoutMs : nat)
  (now : time) :
  op now = Returned Pending ->
  withTimeout firstWins op timeoutMs now
  = Settles (now + timeoutMs) (Fulfilled None).
Proof.
  intros E.
  unfold withTimeout, tryCatch, bind, call, await, race, rejectAfter, ret.
  rewrite E. f_equal. lia.
Qed.

(** C2: [withTimeout(op, timeoutMs)], called at [now], returns [op]'s
    result when [op]'s promise fulfils before the timer fires at
    [now + timeoutMs]; it returns [null] when [op] throws when called, when
    its promise rejects, when it fulfils only after the timer has fired,
    and when it never settles. *)
Theorem withTimeout_spec {T} (op : thunk (option T)) (timeoutMs : nat) (now : time) :
  (forall t v, op now = Returned (Settles t (Fulfilled v)) ->
     t < now + timeoutMs ->
     withTimeout firstWins op timeoutMs now
     = Settles (Nat.max now t) (Fulfilled v)) /\
  (op now = Thrown ->
     withTimeout firstWins op timeoutMs now = Settles now (Fulfilled None)) /\
  (forall t, op now = Returned (Settles t Rejected) ->
     exists t', withTimeout firstWins op timeoutMs now
                = Settles t' (Fulfilled None)) /\
  (forall t v, op now = Returned (Settles t (Fulfilled v)) ->
     now + timeoutMs < t ->
     withTimeout firstWins op timeoutMs now
     = Settles (now + timeoutMs) (Fulfilled None)) /\
  (op now = Returned Pending ->
     withTimeout firstWins op timeoutMs now
     = Settles (now + timeoutMs) (Fulfilled None)).
Proof.
  repeat split.
  - intros t v. apply withTimeout_in_time.
  - apply withTimeout_thrown.
  - intros t. apply withTimeout_rejected.
  - intros t v. apply withTimeout_late.
  - apply withTimeout_pending.
Qed.

(** [withTimeout] always fulfils, no later than the timer. *)
Lemma withTimeout_resolves {T} (op : thunk (option T)) (timeoutMs : nat) :
  resolvesWithin timeoutMs (withTimeout firstWins op timeoutMs).
Proof.
  intros now.
  unfold withTimeout, tryCatch, bind, call, await, race, rejectAfter, ret.
  destruct (op now) as [[t [v|]|]|].
  - destruct (Nat.ltb_spec t (now + timeoutMs)).
    + exists (Nat.max now t), v. split; [reflexivity | lia].
    + destruct (Nat.ltb_spec (now + timeoutMs) t).
      * exists (Nat.max now (now + timeoutMs)), None. split; [reflexivity | lia].
      * destruct (firstWins t).
        -- exists (Nat.max now t), v. split; [reflexivity | lia].
        -- exists (Nat.max now (now + timeoutMs)), None.
           split; [reflexivity | lia].
  - destruct (Nat.ltb_spec t (now + timeoutMs)).
    + exists (Nat.max now t), None. split; [reflexivity | lia].
    + destruct (Nat.ltb_spec (now + timeoutMs) t).
      * exists (Nat.max now (now + timeoutMs)), None. split; [reflexivity | lia].
      * destruct (firstWins t).
        -- exists (Nat.max now t), None. split; [reflexivity | lia].
        -- exists (Nat.max now (now + timeoutMs)), None.
           split; [reflexivity | lia].
  - exists (Nat.max now (now + timeoutMs)), None. split; [reflexivity | lia].
  - exists now, None. split; [reflexivity | lia].
Qed.

(** ** C9 *)

Lemma invokeAll_returned {T} (ops : list (thunk (option T))) (now : time) ps :
  returnsAll ops now ps ->
  invokeAll ops now = Returned (map (fun p => catchWith p None) ps).
Proof.
  induction 1 as [|op p ops ps E _ IH]; simpl.
  - reflexivity.
  - rewrite E, IH. reflexivity.
Qed.

Lemma invokeAll_thrown {T} (ops : list (thunk (option T))) (now : time) :
  (exists op, In op ops /\ op now = Thrown) -> invokeAll ops now = Thrown.
Proof.
  intros (op & Hin & E). induction ops as [|o ops IH]; simpl in *.
  - contradiction.
  - destruct Hin as [->|Hin].
    + rewrite E. reflexivity.
    + destruct (o now); [|reflexivity]. rewrite (IH Hin). reflexivity.
Qed.

Lemma invokeAll_length {T} (ops : list (thunk (option T))) (now : time) qs :
  invokeAll ops now = Returned qs -> List.length qs = List.length ops.
Proof.
  revert qs. induction ops as [|o ops IH]; simpl; intros qs E.
  - inversion E. reflexivity.
  - destruct (o now); [|discriminate].
    destruct (invokeAll ops now) as [rs|]; [|discriminate].
    inversion E; subst. simpl. rewrite (IH rs eq_refl). reflexivity.
Qed.

Lemma all_length {A} (now : time) (ps : list (promise A)) t vs :
  all now ps = Settles t (Fulfilled vs) -> List.length vs = List.length ps.
Proof.
  revert t vs. induction ps as [|p ps IH]; simpl; intros t vs E.
  - inversion E. reflexivity.
  - unfold all2 in E.
    destruct p as [tp [a|]|]; destruct (all now ps) as [tq [bs|]|];
      try discriminate.
    inversion E; subst. simpl. rewrite (IH tq bs eq_refl). reflexivity.
Qed.

(** When every caught promise settles before [bound], so does the batch,
    with the entries in order. *)
Lemma all_caught_in_time {T} (now bound : time) (ps : list (promise (option T))) :
  now < bound ->
  Forall (settledBefore bound) ps ->
  exists t,
    all now (map (fun p => catchWith p None) ps)
    = Settles t (Fulfilled (map resultOrNull ps))
    /\ now <= t < bound.
Proof.
  intros Hnow. induction 1 as [|p ps Hp _ (t & E & Ht)]; simpl.
  - exists now. split; [reflexivity | lia].
  - rewrite E. destruct p as [tp [v|]|]; simpl in *; try contradiction.
    + exists (Nat.max now (Nat.max tp t)). split; [reflexivity | lia].
    + exists (Nat.max now (Nat.max tp t)). split; [reflexivity | lia].
Qed.

(** When some promise has not settled by [bound], neither has the batch. *)
Lemma all_caught_late {T} (now bound : time) (ps : list (promise (option T))) :
  Exists (unsettledAt bound) ps ->
  unsettledAt bound (all now (map (fun p => catchWith p None) ps))
  /\ match all now (map (fun p => catchWith p None) ps) with
     | Settles _ Rejected => False
     | _ => True
     end.
Proof.
  assert (NoRej : forall qs : list (promise (option T)),
             match all now (map (fun p => catchWith p None) qs) with
             | Settles t Rejected => False
             | Settles t (Fulfilled _) => now <= t
             | Pending => True
             end).
  { induction qs as [|q qs IH]; simpl; [lia|].
    destruct (all now (map (fun p => catchWith p None) qs)) as [tq [bs|]|];
      destruct q as [tp [v|]|]; simpl; try exact I; try contradiction; lia. }
  induction 1 as [p ps Hp | p ps _ [IH1 IH2]]; simpl.
  - specialize (NoRej ps).
    destruct (all now (map (fun p => catchWith p None) ps)) as [tq [bs|]|];
      destruct p as [tp [v|]|]; simpl in *; try contradiction;
      (split; [try lia; exact I | exact I]).
  - destruct (all now (map (fun p => catchWith p None) ps)) as [tq [bs|]|];
      destruct p as [tp [v|]|]; simpl in *; try contradiction;
      (split; [try lia; exact I | exact I]).
Qed.

Lemma allNull_length {T} (ops : list (thunk (option T))) :
  List.length (allNull ops) = List.length ops.
Proof. unfold allNull. apply length_map. Qed.

(** [withTimeoutAll] always fulfils, no later than the shared timer, with
    one entry per operation. *)
Lemma withTimeoutAll_resolves {T} (ops : list (thunk (option T))) (timeoutMs : nat)
  (now : time) :
  exists t vs,
    withTimeoutAll firstWins ops timeoutMs now = Settles t (Fulfilled vs)
    /\ now <= t <= now + timeoutMs
    /\ List.length vs = List.length ops.
Proof.
  unfold withTimeoutAll, tryCatch, bind, call, await, ret.
  destruct (invokeAll ops now) as [qs|] eqn:EI.
  - pose proof (invokeAll_length _ _ _ EI) as LI.
    unfold race, rejectAfter, catchWith.
    destruct (all now qs) as [ta [vs|]|] eqn:EA.
    + pose proof (all_length _ _ _ _ EA) as LA.
      destruct (Nat.ltb_spec ta (now + timeoutMs)).
      * exists (Nat.max now ta), vs. repeat split; try lia.
      * destruct (Nat.ltb_spec (now + timeoutMs) ta).
        -- exists (Nat.max now (now + timeoutMs)), (allNull ops).
           repeat split; try lia. apply allNull_length.
        -- destruct (firstWins ta).
           ++ exists (Nat.max now ta), vs. repeat split; try lia.
           ++ exists (Nat.max now (now + timeoutMs)), (allNull ops).
              repeat split; try lia. apply allNull_length.
    + destruct (Nat.ltb_spec ta (now + timeoutMs)).
      * exists (Nat.max now ta), (allNull ops).
        repeat split; try lia. apply allNull_length.
      * destruct (Nat.ltb_spec (now + timeoutMs) ta).
        -- exists (Nat.max now (now + timeoutMs)), (allNull ops).
           repeat split; try lia. apply allNull_length.
        -- destruct (firstWins ta).
           ++ exists (Nat.max now ta), (allNull ops).
              repeat split; try lia. apply allNull_length.
           ++ exists (Nat.max now (now + timeoutMs)), (allNull ops).
              repeat split; try lia. apply allNull_length.
    + exists (Nat.max now (now + timeoutMs)), (allNull ops).
      repeat split; try lia. apply allNull_length.
  - exists now, (allNull ops). repeat split; try lia. apply allNull_length.
Qed.

Lemma withTimeoutAll_in_time {T} (ops : list (thunk (option T)))
  (timeoutMs : nat) (now : time) (ps : list (promise (option T))) :
  returnsAll ops now ps -> 0 < timeoutMs ->
  Forall (settledBefore (now + timeoutMs)) ps ->
  exists t,
    withTimeoutAll firstWins ops timeoutMs now
    = Settles t (Fulfilled (map resultOrNull ps)).
Proof.
  intros HR Hpos HS.
  destruct (all_caught_in_time now (now + timeoutMs) ps ltac:(lia) HS)
    as (t & E & Ht).
  exists (Nat.max now t).
  unfold withTimeoutAll, tryCatch, bind, call, await, ret.
  rewrite (invokeAll_returned _ _ _ HR), E.
  unfold race, rejectAfter, catchWith.
  destruct (Nat.ltb_spec t (now + timeoutMs)); [reflexivity | lia].
Qed.

Lemma withTimeoutAll_thrown {T} (ops : list (thunk (option T)))
  (timeoutMs : nat) (now : time) :
  (exists op, In op ops /\ op now = Thrown) ->
  withTimeoutAll firstWins ops timeoutMs now
  = Settles now (Fulfilled (allNull ops)).
Proof.
  intros HT.
  unfold withTimeoutAll, tryCatch, bind, call, await, ret.
  rewrite (invokeAll_thrown _ _ HT). reflexivity.
Qed.

Lemma withTimeoutAll_late {T} (ops : list (thunk (option T)))
  (timeoutMs : nat) (now : time) (ps : list (promise (option T))) :
  returnsAll ops now ps ->
  Exists (unsettledAt (now + timeoutMs)) ps ->
  withTimeoutAll firstWins ops timeoutMs now
  = Settles (now + timeoutMs) (Fulfilled (allNull ops)).
Proof.
  intros HR HE.
  destruct (all_caught_late now (now + timeoutMs) ps HE) as [HU HN].
  unfold withTimeoutAll, tryCatch, bind, call, await, ret.
  rewrite (invokeAll_returned _ _ _ HR).
  destruct (all now (map (fun p => catchWith p None) ps)) as [ta [vs|]|];
    simpl in HU, HN; try contradiction;
    unfold race, rejectAfter, catchWith.
  - destruct (Nat.ltb_spec ta (now + timeoutMs)); [lia|].
    destruct (Nat.ltb_spec (now + timeoutMs) ta); [|lia].
    f_equal; lia.
  - f_equal; lia.
Qed.

(** C9, as the code has it: [withTimeoutAll(ops, t)] fulfils with an array
    of exactly [ops.length] entries.  When no operation throws when called
    and the whole batch completes before the shared timer fires (the timer
    is set for a positive delay and every promise settles before it fires),
    the entries are, in the order of the input, each operation's result, or
    [null] for an operation whose promise rejects.  When some operation
    throws when called, every entry is [null]; and when the shared timer
    fires before the whole batch has settled, every entry is [null]. *)
Theorem withTimeoutAll_spec {T} (ops : list (thunk (option T))) (timeoutMs : nat)
  (now : time) :
  (exists t vs,
     withTimeoutAll firstWins ops timeoutMs now = Settles t (Fulfilled vs)
     /\ List.length vs = List.length ops) /\
  (forall ps, returnsAll ops now ps -> 0 < timeoutMs ->
     Forall (settledBefore (now + timeoutMs)) ps ->
     exists t,
       withTimeoutAll firstWins ops timeoutMs now
       = Settles t (Fulfilled (map resultOrNull ps))) /\
  ((exists op, In op ops /\ op now = Thrown) ->
     withTimeoutAll firstWins ops timeoutMs now
     = Settles now (Fulfilled (allNull ops))) /\
  (forall ps, returnsAll ops now ps ->
     Exists (unsettledAt (now + timeoutMs)) ps ->
     withTimeoutAll firstWins ops timeoutMs now
     = Settles (now + timeoutMs) (Fulfilled (allNull ops))).
Proof.
  split; [|split; [|split]].
  - destruct (withTimeoutAll_resolves ops timeoutMs now) as (t & vs & E & _ & L).
    eauto.
  - intros ps. apply withTimeoutAll_in_time.
  - apply withTimeoutAll_thrown.
  - intros ps. apply withTimeoutAll_late.
Qed.

End GuardedCalls.

Lemma withTimeout_spec_witness :
  withTimeout (fun _ => true) (fulfilsIn 10 (Some 5%Z)) 1000 7
  = Settles 17 (Fulfilled (Some 5%Z))
  /\ withTimeout (fun _ => true) (@throwsWhenCalled (option Z)) 1000 7
     = Settles 7 (Fulfilled None)
  /\ withTimeout (fun _ => true) (fulfilsIn 1500 (Some 5%Z)) 1000 7
     = Settles 1007 (Fulfilled None)
  /\ withTimeout (fun _ => true) (@neverSettles (option Z)) 1000 7
     = Settles 1007 (Fulfilled None).
Proof.
  split; [|split; [|split]].
  - apply (proj1 (withTimeout_spec (fun _ => true) (fulfilsIn 10 (Some 5%Z)) 1000 7) 17 (Some 5%Z)).
    + reflexivity.
    + simpl; lia.
  - apply (proj1 (proj2 (withTimeout_spec (fun _ => true) (@throwsWhenCalled (option Z)) 1000 7))).
    reflexivity.
  - apply (proj1 (proj2 (proj2 (proj2
             (withTimeout_spec (fun _ => true) (fulfilsIn 1500 (Some 5%Z)) 1000 7))))
             1507 (Some 5%Z)).
    + reflexivity.
    + simpl; lia.
  - apply (proj2 (proj2 (proj2 (proj2
             (withTimeout_spec (fun _ => true) (@neverSettles (option Z)) 1000 7))))).
    reflexivity.
Defined.


Lemma withTimeoutAll_spec_witness :
  (exists t, withTimeoutAll (fun _ => true) quickBatch 2000 7
             = Settles t (Fulfilled [Some 5%Z; None; Some 3%Z]))
  /\ withTimeoutAll (fun _ => true) throwingBatch 2000 7
     = Settles 7 (Fulfilled [None; None])
  /\ withTimeoutAll (fun _ => true) stuckBatch 2000 7
     = Settles 2007 (Fulfilled [None; None]).
Proof.
  split; [|split].
  - apply (proj1 (proj2 (withTimeoutAll_spec (fun _ => true) quickBatch 2000 7))
             [Settles 17 (Fulfilled (Some 5%Z)); Settles 27 Rejected;
              Settles 12 (Fulfilled (Some 3%Z))]).
    + repeat constructor.
    + lia.
    + repeat constructor; simpl; lia.
  - apply (proj1 (proj2 (proj2
             (withTimeoutAll_spec (fun _ => true) throwingBatch 2000 7)))).
    exists throwsWhenCalled. split; [simpl; auto | reflexivity].
  - apply (proj2 (proj2 (proj2
             (withTimeoutAll_spec (fun _ => true) stuckBatch 2000 7)))
             [Settles 17 (Fulfilled (Some 5%Z)); Pending]).
    + repeat constructor.
    + apply Exists_cons_tl. apply Exists_cons_hd. exact I.
Defined.

(** C9 as worded fails on the code: in a batch whose first operation
    fulfils with 5 after 10 ms and whose second operation throws when
    called, the worded entries are [[5, null]]; the code returns
    [[null, null]] at once, long before the timer of 2000 ms. *)
Lemma withTimeoutAll_sync_throw_counterexample :
  map (fun op => entryAsWorded (op 0)) throwingBatch = [Some 5%Z; None] /\
  withTimeoutAll (fun _ => true) throwingBatch 2000 0
  = Settles 0 (Fulfilled [None; None]) /\
  withTimeoutAll (fun _ => true) throwingBatch 2000 0
  <> Settles 0 (Fulfilled (map (fun op => entryAsWorded (op 0)) throwingBatch)).
Proof.
  repeat split; try reflexivity. discriminate.
Qed.

(* ================================================================== *)
(** * Composition of bounded [async] bodies *)
(* ================================================================== *)

Lemma resolves_ret {A} (v : A) : resolvesWithin 0 (ret v).
Proof. intros now. exists now, v. split; [reflexivity | lia]. Qed.

Lemma resolves_weaken {A} (d d' : nat) (m : async A) :
  d <= d' -> resolvesWithin d m -> resolvesWithin d' m.
Proof.
  intros Hd H now. destruct (H now) as (t & v & E & Ht).
  exists t, v. split; [exact E | lia].
Qed.

Lemma resolves_bind {A B} (d1 d2 : nat) (m : async A) (k : A -> async B) :
  resolvesWithin d1 m -> (forall v, resolvesWithin d2 (k v)) ->
  resolvesWithin (d1 + d2) (bind m k).
Proof.
  intros Hm Hk now. destruct (Hm now) as (t & v & E & Ht).
  destruct (Hk v t) as (t' & w & E' & Ht').
  exists t', w. unfold bind. rewrite E. split; [exact E' | lia].
Qed.

Lemma resolves_tryCatch {A} (d : nat) (body handler : async A) :
  resolvesWithin d body -> resolvesWithin d (tryCatch body handler).
Proof.
  intros Hm now. destruct (Hm now) as (t & v & E & Ht).
  exists t, v. unfold tryCatch. rewrite E. split; [reflexivity | lia].
Qed.

Lemma resolves_all2 {A B} (d : nat) (m1 : async A) (m2 : async B) :
  resolvesWithin d m1 -> resolvesWithin d m2 ->
  resolvesWithin d (fun now => await (all2 now (m1 now) (m2 now)) now).
Proof.
  intros H1 H2 now.
  destruct (H1 now) as (t1 & v1 & E1 & Ht1).
  destruct (H2 now) as (t2 & v2 & E2 & Ht2).
  rewrite E1, E2. unfold all2, await.
  eexists _, (v1, v2). split; [reflexivity | lia].
Qed.

Lemma resolves_if {A} (d : nat) (b : bool) (m1 m2 : async A) :
  resolvesWithin d m1 -> resolvesWithin d m2 ->
  resolvesWithin d (if b then m1 else m2).
Proof. destruct b; auto. Qed.

(* ================================================================== *)
(** * Properties of the services *)
(* ================================================================== *)

Section Services.

Variable h : Host.

Ltac leaf := intros ?now; eexists _, _; split; [reflexivity | lia].

(** Continue, at the time [now] of a property read, with the rest of the
    body, in which the values read are fixed. *)
Ltac after_reads d :=
  let now := fresh "now" in
  intros now; cbv beta zeta;
  match goal with
  | |- exists t v, ?m now = _ /\ _ =>
      let H := fresh in
      cut (resolvesWithin d m); [intros H; exact (H now)|]
  end.

Lemma getDeviceInfo_resolves :
  resolvesWithin 1000 (DeviceInfoService.getDeviceInfo h).
Proof.
  unfold DeviceInfoService.getDeviceInfo.
  apply resolves_tryCatch.
  apply (resolves_weaken (1000 + 0)); [lia|].
  apply resolves_bind; [apply withTimeout_resolves|].
  intros totalMemory. leaf.
Qed.

(** A guarded identifier call followed by [result || null]. *)
Lemma guardedId_resolves (f : thunk (option string)) :
  resolvesWithin 1000
    (result <- withTimeout (scheduler h) (asyncArrow f) 1000 ;;
     ret (JS.truthyStr result)).
Proof.
  apply (resolves_weaken (1000 + 0)); [lia|].
  apply resolves_bind; [apply withTimeout_resolves|].
  intros result. apply resolves_ret.
Qed.

Lemma getDeviceId_resolves :
  resolvesWithin 1000 (DeviceIdService.getDeviceId h).
Proof.
  unfold DeviceIdService.getDeviceId.
  apply resolves_tryCatch.
  apply resolves_if; [apply guardedId_resolves|].
  apply resolves_if; [apply guardedId_resolves|].
  apply (resolves_weaken 0); [lia | apply resolves_ret].
Qed.

Lemma getOfflineUserId_resolves (fallbackId : option string) :
  resolvesWithin 1000 (DeviceIdService.getOfflineUserId h fallbackId).
Proof.
  unfold DeviceIdService.getOfflineUserId.
  apply resolves_if.
  - apply (resolves_weaken 0); [lia | apply resolves_ret].
  - apply (resolves_weaken (1000 + 0)); [lia|].
    apply resolves_bind; [apply getDeviceId_resolves|].
    intros deviceId. destruct (JS.truthyStr deviceId); apply resolves_ret.
Qed.

Lemma os_android_not_ios :
  (OS h =? "android")%string = true -> (OS h =? "ios")%string = false.
Proof.
  intros E. apply String.eqb_eq in E. rewrite E. reflexivity.
Qed.

Lemma getApplicationInfo_resolves :
  resolvesWithin 2000 (ApplicationInfoService.getApplicationInfo h).
Proof.
  unfold ApplicationInfoService.getApplicationInfo.
  apply resolves_tryCatch.
  apply (resolves_weaken (1000 + 1000)); [lia|].
  apply resolves_bind.
  { apply resolves_all2; apply withTimeout_resolves. }
  intros [installTime lastUpdateTime].
  after_reads 1000.
  destruct (OS h =? "android")%string eqn:EA.
  - rewrite (os_android_not_ios EA).
    apply (resolves_weaken (1000 + (0 + 0))); [lia|].
    apply resolves_bind; [apply guardedId_resolves|].
    intros androidId. apply resolves_bind; [apply resolves_ret|].
    intros iosIdForVendor. apply resolves_ret.
  - apply (resolves_weaken (0 + (1000 + 0))); [lia|].
    apply resolves_bind; [apply resolves_ret|].
    intros androidId. apply resolves_bind.
    + apply resolves_if; [apply guardedId_resolves|].
      apply (resolves_weaken 0); [lia | apply resolves_ret].
    + intros iosIdForVendor. apply resolves_ret.
Qed.

Lemma getSystemInfo_resolves (userId : option string) :
  resolvesWithin 2000 (DeviceService.getSystemInfo h userId).
Proof.
  unfold DeviceService.getSystemInfo.
  apply (resolves_weaken (2000 + 0)); [lia|].
  apply resolves_bind.
  { apply resolves_all2; [|apply getApplicationInfo_resolves].
    apply (resolves_weaken 1000); [lia | apply getDeviceInfo_resolves]. }
  intros [device application]. leaf.
Qed.

Lemma hasNotch_resolves :
  resolvesWithin 0 (DeviceCapabilityService.hasNotch h).
Proof.
  unfold DeviceCapabilityService.hasNotch.
  apply resolves_tryCatch.
  apply resolves_if; [apply resolves_ret | leaf].
Qed.

(** [getDeviceCapabilities] settles when the snapshot arrives: it fulfils
    when the read [Device.DeviceType.TABLET] returns then, and rejects when
    that read throws. *)
Lemma getDeviceCapabilities_outcome (now : time) :
  exists t,
    now <= t <= now + 1000 /\
    match Device.DeviceType_TABLET (deviceModule h) t with
    | Returned _ =>
        exists caps,
          DeviceCapabilityService.getDeviceCapabilities h now
          = Settles t (Fulfilled caps)
    | Thrown =>
        DeviceCapabilityService.getDeviceCapabilities h now = Settles t Rejected
    end.
Proof.
  destruct (getDeviceInfo_resolves now) as (t & info & E & Ht).
  exists t. split; [exact Ht|].
  destruct (hasNotch_resolves t) as (t' & notch & EN & BN).
  assert (t' = t) by lia. subst t'.
  cbv [DeviceCapabilityService.getDeviceCapabilities bind call].
  rewrite E.
  destruct (Device.DeviceType_TABLET (deviceModule h) t) as [tablet|].
  - rewrite EN. eexists. reflexivity.
  - reflexivity.
Qed.

Lemma generateFallbackId_resolves :
  resolvesWithin 0 (UserFriendlyIdService.generateFallbackId h).
Proof. unfold UserFriendlyIdService.generateFallbackId. leaf. Qed.

(** Whatever the batch delivers, the label is built, or the fallback is
    taken, without waiting. *)
Lemma getUserFriendlyId_resolves :
  resolvesWithin 2000 (UserFriendlyIdService.getUserFriendlyId h).
Proof.
  unfold UserFriendlyIdService.getUserFriendlyId.
  destruct (OS h =? "web")%string.
  { apply (resolves_weaken 0); [lia | leaf]. }
  intros now. unfold tryCatch, bind.
  destruct (withTimeoutAll_resolves (scheduler h)
              [UserFriendlyIdService.fetchInfo h; UserFriendlyIdService.fetchId h]
              2000 now) as (t & results & E & Ht & _).
  rewrite E.
  assert (Fallback : exists v,
             UserFriendlyIdService.generateFallbackId h t
             = Settles t (Fulfilled v)) by (eexists; reflexivity).
  destruct Fallback as (fb & Efb).
  destruct (nth 0 results None) as [info|].
  - destruct (JS.truthyStr _).
    + unfold UserFriendlyIdService.extractIdPartOf.
      destruct (nth 1 results None) as [[d|i]|]; unfold ret, throw.
      * rewrite Efb. exists t, fb. split; [reflexivity | lia].
      * eexists t, _. split; [reflexivity | lia].
      * eexists t, _. split; [reflexivity | lia].
    + rewrite Efb. exists t, fb. split; [reflexivity | lia].
  - rewrite Efb. exists t, fb. split; [reflexivity | lia].
Qed.

(** ** The facade *)

(** X21: whatever the providers do, seven of the eight operations of the
    [DeviceService] facade fulfil with a value of their result type, at
    most 2000 ms after the call: they neither reject nor stay pending.
    The eighth, [getDeviceCapabilities], settles within 1000 ms, when its
    snapshot arrives: it fulfils when the read [Device.DeviceType.TABLET]
    returns at that time and rejects when that read throws. *)
Theorem facade_outcomes :
  resolvesWithin 1000 (DeviceService.getDeviceInfo h) /\
  resolvesWithin 2000 (DeviceService.getApplicationInfo h) /\
  (forall userId, resolvesWithin 2000 (DeviceService.getSystemInfo h userId)) /\
  resolvesWithin 1000 (DeviceService.getDeviceId h) /\
  (forall fallbackId,
     resolvesWithin 1000 (DeviceService.getOfflineUserId h fallbackId)) /\
  resolvesWithin 0 (DeviceService.hasNotch h) /\
  resolvesWithin 2000 (DeviceService.getUserFriendlyId h) /\
  (forall now, exists t,
     now <= t <= now + 1000 /\
     match Device.DeviceType_TABLET (deviceModule h) t with
     | Returned _ =>
         exists caps,
           DeviceService.getDeviceCapabilities h now = Settles t (Fulfilled caps)
     | Thrown =>
         DeviceService.getDeviceCapabilities h now = Settles t Rejected
     end).
Proof.
  repeat split.
  - apply getDeviceInfo_resolves.
  - apply getApplicationInfo_resolves.
  - apply getSystemInfo_resolves.
  - apply getDeviceId_resolves.
  - intros fallbackId. apply getOfflineUserId_resolves.
  - apply hasNotch_resolves.
  - apply getUserFriendlyId_resolves.
  - apply getDeviceCapabilities_outcome.
Qed.

(** ** C3 *)

(** C3, as the code has it: [getDeviceInfo] always fulfils with a snapshot
    in which each field, independently of the others, holds the value its
    provider read returned, or its default ([null]; [false] for
    [isDevice]) when that read returned [null] or threw; [totalMemory]
    holds the value of a memory call that fulfils before the timer of
    1000 ms and [null] otherwise; [platform] is the runtime platform.  When
    every read throws and the memory call yields nothing in time, the
    snapshot is the all-unknown one. *)
Theorem getDeviceInfo_fieldwise (now : time) :
  let D := deviceModule h in
  exists t d,
    DeviceInfoService.getDeviceInfo h now = Settles t (Fulfilled d) /\
    fieldOf (Device.brand D t) (brand d) /\
    fieldOf (Device.manufacturer D t) (manufacturer d) /\
    fieldOf (Device.modelName D t) (modelName d) /\
    fieldOf (Device.modelId D t) (modelId d) /\
    fieldOf (Device.deviceName D t) (deviceName d) /\
    fieldOf (Device.deviceYearClass D t) (deviceYearClass d) /\
    fieldOf (Device.deviceType D t) (deviceType d) /\
    flagOf (Device.isDevice D t) (isDevice d) /\
    fieldOf (Device.osName D t) (osName d) /\
    fieldOf (Device.osVersion D t) (osVersion d) /\
    fieldOf (Device.osBuildId D t) (osBuildId d) /\
    fieldOf (Device.platformApiLevel D t) (platformApiLevel d) /\
    memoryOf now (Device.getMaxMemoryAsync D now) (totalMemory d) /\
    platform d = OS h /\
    (everyReadThrows D t -> memoryFails now (Device.getMaxMemoryAsync D now) ->
     d = DeviceInfoService.getMinimalDeviceInfo h).
Proof.
  intros D.
  destruct (withTimeout_resolves (scheduler h) (Device.getMaxMemoryAsync D) 1000 now)
    as (t & m & E & Ht).
  assert (HM : memoryOf now (Device.getMaxMemoryAsync D now) m).
  { unfold memoryOf.
    destruct (Device.getMaxMemoryAsync D now) as [[tm [v|]|]|] eqn:EM.
    - split; intros Hlt.
      + rewrite (withTimeout_in_time _ _ _ _ _ _ EM Hlt) in E. congruence.
      + rewrite (withTimeout_late _ _ _ _ _ _ EM Hlt) in E. congruence.
    - destruct (withTimeout_rejected (scheduler h) _ 1000 _ _ EM) as (t' & E').
      congruence.
    - rewrite (withTimeout_pending _ _ _ _ EM) in E. congruence.
    - rewrite (withTimeout_thrown _ _ _ _ EM) in E. congruence. }
  assert (HF : memoryFails now (Device.getMaxMemoryAsync D now) -> m = None).
  { unfold memoryFails, memoryOf in *.
    destruct (Device.getMaxMemoryAsync D now) as [[tm [v|]|]|]; auto.
    destruct HM as [_ HM]. exact HM. }
  eexists t, _. split.
  { unfold DeviceInfoService.getDeviceInfo, tryCatch, bind. fold D.
    rewrite E. reflexivity. }
  simpl. unfold fieldOf, flagOf, safeAccessNull, safeAccess, JS.nullish.
  repeat match goal with
         | |- _ /\ _ => split
         | |- match ?r with _ => _ end =>
             let R := fresh in destruct r as [[?|]|] eqn:R; reflexivity
         end; try exact HM; try reflexivity.
  intros (R1 & R2 & R3 & R4 & R5 & R6 & R7 & R8 & R9 & R10 & R11 & R12) MF.
  rewrite R1, R2, R3, R4, R5, R6, R7, R8, R9, R10, R11, R12, (HF MF).
  reflexivity.
Qed.

(** ** C8 *)

Lemma truthyStr_some (x : option string) (s : string) :
  JS.truthyStr x = Some s -> x = Some s /\ s <> "".
Proof.
  destruct x as [[|c r]|]; simpl; intros E; inversion E; subst.
  split; [reflexivity | discriminate].
Qed.

Lemma truthyStr_idem (x : option string) :
  JS.truthyStr (JS.truthyStr x) = JS.truthyStr x.
Proof. destruct x as [[|c r]|]; reflexivity. Qed.

(** What [getDeviceId] delivers has passed [result || null]: it is never
    the empty string. *)
Lemma getDeviceId_truthy (now t : time) (deviceId : option string) :
  DeviceIdService.getDeviceId h now = Settles t (Fulfilled deviceId) ->
  JS.truthyStr deviceId = deviceId.
Proof.
  unfold DeviceIdService.getDeviceId, tryCatch, bind, ret.
  destruct (OS h =? "android")%string.
  - destruct (withTimeout_resolves (scheduler h)
                (asyncArrow (Application.getAndroidId (applicationModule h)))
                1000 now) as (t' & r & E & _).
    rewrite E. intros X; inversion X. apply truthyStr_idem.
  - destruct (OS h =? "ios")%string.
    + destruct (withTimeout_resolves (scheduler h)
                  (asyncArrow (Application.getIosIdForVendorAsync (applicationModule h)))
                  1000 now) as (t' & r & E & _).
      rewrite E. intros X; inversion X. apply truthyStr_idem.
    + intros X; inversion X. reflexivity.
Qed.

(** C8: on the web platform [getOfflineUserId(fallbackId)] fulfils at once
    with [null], whatever the argument.  On every other platform, and so on
    those with identifier support, it fulfils with ["offline_"] followed by
    the identifier when [getDeviceId] yields one, which is then non-empty,
    and with the caller's [fallbackId], by default ["offline_user"], when
    [getDeviceId] yields [null]. *)
Theorem getOfflineUserId_spec (fallbackId : option string) (now : time) :
  (OS h = "web" ->
   DeviceService.getOfflineUserId h fallbackId now = Settles now (Fulfilled None)) /\
  (OS h <> "web" ->
   exists t deviceId,
     now <= t <= now + 1000 /\
     DeviceService.getDeviceId h now = Settles t (Fulfilled deviceId) /\
     deviceId <> Some "" /\
     DeviceService.getOfflineUserId h fallbackId now
     = Settles t (Fulfilled
         (Some match deviceId with
               | Some id => "offline_" ++ id
               | None =>
                   match fallbackId with
                   | Some f => f
                   | None => "offline_user"
                   end
               end))) /\
  DeviceService.getOfflineUserId h fallbackId
  = DeviceIdService.getOfflineUserId h fallbackId.
Proof.
  unfold DeviceService.getOfflineUserId, DeviceService.getDeviceId,
    DeviceIdService.getOfflineUserId, DeviceIdService.defaultFallbackId.
  split; [|split].
  - intros ->. reflexivity.
  - intros Hweb.
    destruct (String.eqb_spec (OS h) "web") as [|_]; [contradiction|].
    destruct (getDeviceId_resolves now) as (t & deviceId & E & Ht).
    pose proof (getDeviceId_truthy _ _ _ E) as Htr.
    exists t, deviceId. split; [exact Ht|]. split; [exact E|]. split.
    + intros ->. discriminate.
    + unfold bind. rewrite E, Htr.
      destruct deviceId as [id|]; destruct fallbackId; reflexivity.
  - destruct fallbackId; reflexivity.
Qed.

(** ** C4 *)

Lemma length_append (p s : string) :
  String.length (p ++ s) = String.length p + String.length s.
Proof. induction p as [|c p IH]; simpl; [reflexivity | rewrite IH; reflexivity]. Qed.

Lemma substringFrom_append (p s : string) :
  JS.substringFrom (String.length p) (p ++ s) = s.
Proof.
  induction p as [|c p IH]; simpl; [|exact IH].
  destruct s; reflexivity.
Qed.

(** The suffix taken from an identifier is its last 6 characters in upper
    case. *)
Lemma extractIdPart_last6 (rnd36 p s : string) :
  String.length s = 6 ->
  extractIdPart rnd36 (Some (p ++ s)) 6 = JS.toUpperCase s.
Proof.
  intros L. unfold extractIdPart.
  assert (JS.truthyStr (Some (p ++ s)) = Some (p ++ s)) as ->.
  { destruct p; [|reflexivity]. destruct s; [discriminate | reflexivity]. }
  rewrite length_append, L.
  replace (Z.to_nat (Z.max 0 (Z.of_nat (String.length p + 6) - Z.of_nat 6)))
    with (String.length p) by lia.
  rewrite substringFrom_append. reflexivity.
Qed.

(** The label built from a snapshot with a model name and a resolved
    identifier of at least 6 characters. *)
Lemma getUserFriendlyId_label (now t1 t2 : time) (d : DeviceInfo)
  (model p s : string) :
  OS h <> "web" ->
  DeviceInfoService.getDeviceInfo h now = Settles t1 (Fulfilled d) ->
  modelName d = Some model -> model <> "" ->
  DeviceIdService.getDeviceId h now = Settles t2 (Fulfilled (Some (p ++ s))) ->
  String.length s = 6 ->
  exists t,
    UserFriendlyIdService.getUserFriendlyId h now
    = Settles t (Fulfilled (JS.filterStr JS.isAlnum model ++ "-" ++ JS.toUpperCase s)).
Proof.
  intros Hweb E1 Hm Hne E2 L.
  destruct (getDeviceInfo_resolves now) as (t1' & d' & E1' & B1).
  destruct (getDeviceId_resolves now) as (t2' & i' & E2' & B2).
  rewrite E1 in E1'. rewrite E2 in E2'.
  inversion E1'; inversion E2'; subst t1' d' t2' i'. clear E1' E2'.
  unfold UserFriendlyIdService.getUserFriendlyId.
  destruct (String.eqb_spec (OS h) "web") as [|_]; [contradiction|].
  destruct (withTimeoutAll_in_time (scheduler h)
              [UserFriendlyIdService.fetchInfo h; UserFriendlyIdService.fetchId h]
              2000 now
              [Settles t1 (Fulfilled (Some (UserFriendlyIdService.FetchedInfo d)));
               Settles t2 (Fulfilled (Some (UserFriendlyIdService.FetchedId (p ++ s))))])
    as (t & E).
  { constructor; [|constructor; [|constructor]].
    - unfold UserFriendlyIdService.fetchInfo, start, bind. rewrite E1. reflexivity.
    - unfold UserFriendlyIdService.fetchId, start, bind. rewrite E2. reflexivity. }
  { lia. }
  { constructor; [simpl; lia|]. constructor; [simpl; lia|]. constructor. }
  exists t. unfold tryCatch, bind. rewrite E. simpl.
  rewrite Hm. unfold JS.orStr.
  assert (JS.truthyStr (Some model) = Some model) as ->
    by (destruct model; [contradiction | reflexivity]).
  assert (JS.truthyStr (Some model) = Some model) as ->
    by (destruct model; [contradiction | reflexivity]).
  unfold UserFriendlyIdService.extractIdPartOf, ret.
  rewrite (extractIdPart_last6 _ _ _ L).
  unfold cleanModelName.
  assert (JS.truthyStr (Some model) = Some model) as ->
    by (destruct model; [contradiction | reflexivity]).
  reflexivity.
Qed.

(** C4: on a non-web platform, when the snapshot fetched has the model name
    ["iPhone 13 Pro!"] and the identifier resolved ends in ["xyzABC"],
    [getUserFriendlyId] fulfils with the model name stripped of its
    non-alphanumeric characters, a hyphen and the last 6 characters of the
    identifier in upper case: ["iPhone13Pro-XYZABC"], which matches
    [^iPhone13Pro-[A-Z0-9]{6}$] and ends with the ["ZABC"] of the
    specification. *)
Theorem getUserFriendlyId_iPhone13Pro (now t1 t2 : time) (d : DeviceInfo)
  (idStart : string) :
  OS h <> "web" ->
  DeviceInfoService.getDeviceInfo h now = Settles t1 (Fulfilled d) ->
  modelName d = Some "iPhone 13 Pro!" ->
  DeviceIdService.getDeviceId h now
  = Settles t2 (Fulfilled (Some (idStart ++ "xyzABC"))) ->
  exists t label,
    DeviceService.getUserFriendlyId h now = Settles t (Fulfilled label) /\
    label = cleanModelName (Some "iPhone 13 Pro!") ++ "-"
            ++ extractIdPart (random36 h t) (Some (idStart ++ "xyzABC")) 6 /\
    label = "iPhone13Pro-XYZABC" /\
    matchesIPhone13ProLabel label = true /\
    JS.substringFrom 14 label = "ZABC".
Proof.
  intros Hweb E1 Hm E2.
  destruct (getUserFriendlyId_label now t1 t2 d "iPhone 13 Pro!" idStart "xyzABC"
              Hweb E1 Hm ltac:(discriminate) E2 eq_refl) as (t & E).
  exists t, "iPhone13Pro-XYZABC". split; [exact E|]. split.
  - rewrite (extractIdPart_last6 _ _ _ (eq_refl : String.length "xyzABC" = 6)).
    reflexivity.
  - repeat split; reflexivity.
Qed.

End Services.


(* ================================================================== *)
(** * The statements at the sample hosts *)
(* ================================================================== *)

(** ** C1 *)

(** C1 does not hold of the code.  On a host where [expo-device] is not
    ready, so that every [Device.*] access throws and the memory call
    never settles, [getDeviceInfo] degrades to the all-unknown snapshot
    and [hasNotch] answers [false], but [getDeviceCapabilities], which
    reads [Device.DeviceType.TABLET] outside any [try], rejects: the
    exception reaches its caller. *)
Theorem getDeviceCapabilities_rejects_when_unready :
  Device.DeviceType_TABLET (deviceModule unreadyHost) 1000 = Thrown /\
  DeviceService.getDeviceInfo unreadyHost 0
  = Settles 1000 (Fulfilled (DeviceInfoService.getMinimalDeviceInfo unreadyHost)) /\
  DeviceService.hasNotch unreadyHost 1000 = Settles 1000 (Fulfilled false) /\
  DeviceService.getDeviceCapabilities unreadyHost 0 = Settles 1000 Rejected.
Proof. repeat split; reflexivity. Qed.

Lemma getDeviceInfo_fieldwise_witness :
  exists t d,
    DeviceInfoService.getDeviceInfo unreadyHost 0 = Settles t (Fulfilled d)
    /\ d = DeviceInfoService.getMinimalDeviceInfo unreadyHost.
Proof.
  destruct (getDeviceInfo_fieldwise unreadyHost 0)
    as (t & d & E & _ & _ & _ & _ & _ & _ & _ & _ & _ & _ & _ & _ & _ & _ & Hmin).
  exists t, d. split; [exact E|].
  apply Hmin.
  - repeat split; reflexivity.
  - exact I.
Defined.

(** C3 as worded fails on the code: on a host where reading the brand
    throws and the model name reads ["Pixel 7"], the snapshot carries the
    model name read and a defaulted brand: it is neither fully populated
    nor the all-unknown one. *)
Lemma getDeviceInfo_partial_counterexample :
  (exists t d,
     DeviceInfoService.getDeviceInfo halfReadyHost 0 = Settles t (Fulfilled d)
     /\ modelName d = Some "Pixel 7"
     /\ brand d = None
     /\ Device.brand (deviceModule halfReadyHost) t = Thrown)
  /\ ~ neverPartiallyFilled halfReadyHost 0.
Proof.
  split.
  - eexists _, _. split; [reflexivity|]. repeat split; reflexivity.
  - intros H.
    destruct (H _ _ eq_refl) as [P | P].
    + destruct P as (B & _). discriminate B.
    + discriminate P.
Qed.

Lemma getOfflineUserId_spec_witness :
  DeviceService.getOfflineUserId webHost (Some "guest") 0
  = Settles 0 (Fulfilled None)
  /\ DeviceService.getOfflineUserId halfReadyHost None 0
     = Settles 30 (Fulfilled (Some "offline_9774d56d682e549c"))
  /\ DeviceService.getOfflineUserId stuckIdHost (Some "guest") 0
     = Settles 1000 (Fulfilled (Some "guest")).
Proof.
  split; [|split].
  - apply (proj1 (getOfflineUserId_spec webHost (Some "guest") 0)).
    reflexivity.
  - destruct (proj1 (proj2 (getOfflineUserId_spec halfReadyHost None 0)))
      as (t & deviceId & _ & E & _ & R).
    + discriminate.
    + vm_compute in E. inversion E; subst t deviceId. exact R.
  - destruct (proj1 (proj2 (getOfflineUserId_spec stuckIdHost (Some "guest") 0)))
      as (t & deviceId & _ & E & _ & R).
    + discriminate.
    + vm_compute in E. inversion E; subst t deviceId. exact R.
Defined.

Lemma getUserFriendlyId_iPhone13Pro_witness :
  exists t,
    DeviceService.getUserFriendlyId iPhoneHost 0
    = Settles t (Fulfilled "iPhone13Pro-XYZABC").
Proof.
  destruct (getUserFriendlyId_iPhone13Pro iPhoneHost 0 20 30
              {| brand := Some "Apple";
                 manufacturer := Some "Acme";
                 modelName := Some "iPhone 13 Pro!";
                 modelId := Some "model-1";
                 deviceName := Some "Phone";
                 deviceYearClass := Some 2021%Z;
                 deviceType := Some PHONE;
                 isDevice := true;
                 osName := Some "OS";
                 osVersion := Some "17.0";
                 osBuildId := Some "21A";
                 platformApiLevel := None;
                 totalMemory := Some (4 * 1024 * 1024 * 1024)%Z;
                 platform := "ios" |}
              "A1B2C3-")
    as (t & label & E & _ & L & _).
  - discriminate.
  - reflexivity.
  - reflexivity.
  - reflexivity.
  - exists t. rewrite <- L. exact E.
Defined.

(* ================================================================== *)
(** * Further properties: the string utilities *)
(* ================================================================== *)

Lemma upperChar_not_lower (c : ascii) : JS.isLower (JS.upperChar c) = false.
Proof. destruct c as [[] [] [] [] [] [] [] []]; reflexivity. Qed.

Lemma toUpperCase_noLower (s : string) : noLower (JS.toUpperCase s) = true.
Proof.
  induction s as [|c s IH]; [reflexivity|].
  unfold noLower, JS.toUpperCase in *. simpl.
  rewrite upperChar_not_lower, IH. reflexivity.
Qed.

Lemma toUpperCase_length (s : string) :
  String.length (JS.toUpperCase s) = String.length s.
Proof.
  induction s as [|c s IH]; [reflexivity|].
  unfold JS.toUpperCase in *. simpl. rewrite IH. reflexivity.
Qed.

Lemma substring_length_le (n m : nat) (s : string) :
  String.length (String.substring n m s) <= m.
Proof.
  revert n m. induction s as [|c s IH]; intros n m.
  - destruct n, m; simpl; lia.
  - destruct n as [|n]; [destruct m as [|m]|]; simpl.
    + lia.
    + specialize (IH 0 m). lia.
    + apply IH.
Qed.

Lemma substringFrom_split (k : nat) (s : string) :
  exists p, s = p ++ JS.substringFrom k s
            /\ String.length (JS.substringFrom k s) = String.length s - k.
Proof.
  revert s. induction k as [|k IH]; intros s.
  - exists "". split; [reflexivity | simpl; lia].
  - destruct s as [|c s]; simpl.
    + exists "". split; reflexivity.
    + destruct (IH s) as (p & E & L).
      exists (String c p). split; [simpl; rewrite <- E; reflexivity | exact L].
Qed.

Lemma filterStr_all (f : ascii -> bool) (s : string) :
  JS.allStr f (JS.filterStr f s) = true.
Proof.
  induction s as [|c s IH]; [reflexivity|].
  simpl. destruct (f c) eqn:E; [simpl; rewrite E, IH; reflexivity | exact IH].
Qed.

Lemma filterStr_id (f : ascii -> bool) (s : string) :
  JS.allStr f s = true -> JS.filterStr f s = s.
Proof.
  induction s as [|c s IH]; [reflexivity|].
  simpl. destruct (f c); [|discriminate].
  simpl. intros H. rewrite (IH H). reflexivity.
Qed.

Lemma filterStr_none (f : ascii -> bool) (s : string) :
  JS.allStr (fun c => negb (f c)) s = true -> JS.filterStr f s = "".
Proof.
  induction s as [|c s IH]; [reflexivity|].
  simpl. destruct (f c); [discriminate|]. exact IH.
Qed.

Lemma truthyStr_nonempty (m : string) :
  m <> "" -> JS.truthyStr (Some m) = Some m.
Proof. destruct m; [contradiction | reflexivity]. Qed.

(** X1: the label [cleanModelName] returns holds letters and digits only,
    whatever the model name.  A non-empty name of letters and digits is
    returned as it is; a non-empty name without any letter or digit gives
    the empty label, not ["Device"], which is kept for an absent or empty
    name. *)
Theorem cleanModelName_label :
  (forall model, JS.allStr JS.isAlnum (cleanModelName model) = true) /\
  (forall m, m <> "" -> JS.allStr JS.isAlnum m = true ->
     cleanModelName (Some m) = m) /\
  (forall m, m <> "" -> noAlnum m = true -> cleanModelName (Some m) = "") /\
  cleanModelName None = "Device" /\
  cleanModelName (Some "") = "Device".
Proof.
  repeat split; try reflexivity.
  - intros model. unfold cleanModelName.
    destruct (JS.truthyStr model); [apply filterStr_all | reflexivity].
  - intros m Hne Hall. unfold cleanModelName.
    rewrite (truthyStr_nonempty _ Hne). apply filterStr_id, Hall.
  - intros m Hne Hnone. unfold cleanModelName.
    rewrite (truthyStr_nonempty _ Hne). apply filterStr_none, Hnone.
Qed.

Lemma cleanModelName_label_witness :
  cleanModelName (Some "Pixel7") = "Pixel7"
  /\ cleanModelName (Some "-- !") = "".
Proof.
  split.
  - apply (proj1 (proj2 cleanModelName_label) "Pixel7");
      [discriminate | reflexivity].
  - apply (proj1 (proj2 (proj2 cleanModelName_label)) "-- !");
      [discriminate | reflexivity].
Defined.

(** X2: for a non-empty identifier of ASCII characters,
    [extractIdPart(deviceId, length)] is the upper-cased suffix of the
    identifier of [min(deviceId.length, length)] characters: an identifier
    shorter than [length] is returned whole, in upper case and without
    padding.  The result holds no lower-case letter. *)
Theorem extractIdPart_suffix (rnd36 id : string) (length : nat) :
  id <> "" ->
  isAscii id = true ->
  exists start suffix,
    id = start ++ suffix /\
    String.length suffix = Nat.min (String.length id) length /\
    extractIdPart rnd36 (Some id) length = JS.toUpperCase suffix /\
    String.length (extractIdPart rnd36 (Some id) length)
    = Nat.min (String.length id) length /\
    noLower (extractIdPart rnd36 (Some id) length) = true.
Proof.
  intros Hne _. unfold extractIdPart. rewrite (truthyStr_nonempty _ Hne).
  set (from := Z.to_nat (Z.max 0 (Z.of_nat (String.length id) - Z.of_nat length))).
  assert (Hfrom : from = String.length id - length) by (unfold from; lia).
  destruct (substringFrom_split from id) as (start & E & L).
  exists start, (JS.substringFrom from id).
  split; [exact E|]. split; [lia|]. split; [reflexivity|].
  split; [rewrite toUpperCase_length; lia | apply toUpperCase_noLower].
Qed.

Lemma extractIdPart_suffix_witness :
  exists start suffix,
    "ab12" = start ++ suffix /\
    String.length suffix = 4 /\
    extractIdPart "0.4fzyo82mvyr" (Some "ab12") 6 = JS.toUpperCase suffix.
Proof.
  destruct (extractIdPart_suffix "0.4fzyo82mvyr" "ab12" 6)
    as (start & suffix & E & L & R & _).
  - discriminate.
  - reflexivity.
  - exists start, suffix. split; [exact E|]. split; [exact L | exact R].
Defined.

(** X3: [generateRandomId(length)] has at most [length] characters and no
    lower-case letter, whatever [Math.random] returns; it is empty when the
    base-36 string of the random number has no digit after its point. *)
Theorem generateRandomId_shape (rnd36 : string) (length : nat) :
  String.length (generateRandomId rnd36 length) <= length /\
  noLower (generateRandomId rnd36 length) = true /\
  (String.length rnd36 <= 2 -> generateRandomId rnd36 length = "").
Proof.
  unfold generateRandomId, JS.substring. split; [|split].
  - rewrite toUpperCase_length.
    replace (2 + length - 2) with length by lia. apply substring_length_le.
  - apply toUpperCase_noLower.
  - intros Hlen. destruct rnd36 as [|a [|b [|c r]]]; simpl in Hlen; try lia;
      destruct length; reflexivity.
Qed.

Lemma generateRandomId_shape_witness : generateRandomId "0" 6 = "".
Proof.
  apply (proj2 (proj2 (generateRandomId_shape "0" 6))). simpl; lia.
Defined.

Lemma generateRandomId_length (rnd36 : string) (n : nat) :
  String.length (generateRandomId rnd36 n) <= n.
Proof.
  unfold generateRandomId, JS.substring. rewrite toUpperCase_length.
  replace (2 + n - 2) with n by lia. apply substring_length_le.
Qed.

Lemma generateRandomId_noLower (rnd36 : string) (n : nat) :
  noLower (generateRandomId rnd36 n) = true.
Proof. unfold generateRandomId. apply toUpperCase_noLower. Qed.

Lemma extractIdPart_shape (rnd36 : string) (deviceId : option string) (n : nat) :
  String.length (extractIdPart rnd36 deviceId n) <= n
  /\ noLower (extractIdPart rnd36 deviceId n) = true.
Proof.
  unfold extractIdPart. destruct (JS.truthyStr deviceId) as [id|].
  - split; [|apply toUpperCase_noLower].
    rewrite toUpperCase_length.
    destruct (substringFrom_split
                (Z.to_nat (Z.max 0 (Z.of_nat (String.length id) - Z.of_nat n))) id)
      as (start & _ & L).
    lia.
  - split; [apply generateRandomId_length | apply generateRandomId_noLower].
Qed.

Lemma getPlatformPrefix_alnum (platform : string) :
  JS.allStr JS.isAlnum (getPlatformPrefix platform) = true.
Proof.
  unfold getPlatformPrefix.
  destruct (platform =? "ios")%string; [reflexivity|].
  destruct (platform =? "android")%string; reflexivity.
Qed.

(* ================================================================== *)
(** * Further properties: the friendly identifier *)
(* ================================================================== *)

Section FriendlyId.

Variable h : Host.

(** X4: whenever an identifier [getDeviceId] resolves for the call is
    made of ASCII characters, and whatever the providers do otherwise,
    [getUserFriendlyId] fulfils with a string of the form [head-tail] in
    which [head] holds letters and digits only and [tail] has at most 6
    characters, none a lower-case letter. *)
Theorem getUserFriendlyId_format (now : time) :
  (forall t id,
     DeviceService.getDeviceId h now = Settles t (Fulfilled (Some id)) ->
     isAscii id = true) ->
  exists t head tail,
    DeviceService.getUserFriendlyId h now
    = Settles t (Fulfilled (head ++ "-" ++ tail)) /\
    JS.allStr JS.isAlnum head = true /\
    String.length tail <= 6 /\
    noLower tail = true.
Proof.
  intros _.
  unfold DeviceService.getUserFriendlyId,
    UserFriendlyIdService.getUserFriendlyId.
  destruct (OS h =? "web")%string.
  { exists now, "WebUser", (generateRandomId (random36 h now) 6).
    split; [reflexivity|]. split; [reflexivity|].
    split; [apply generateRandomId_length | apply generateRandomId_noLower]. }
  unfold tryCatch, bind.
  destruct (withTimeoutAll_resolves (scheduler h)
              [UserFriendlyIdService.fetchInfo h; UserFriendlyIdService.fetchId h]
              2000 now) as (t & results & E & _ & _).
  rewrite E.
  assert (Fallback :
            exists head tail,
              UserFriendlyIdService.generateFallbackId h t
              = Settles t (Fulfilled (head ++ "-" ++ tail)) /\
              JS.allStr JS.isAlnum head = true /\
              String.length tail <= 6 /\
              noLower tail = true).
  { exists (getPlatformPrefix (OS h)), (generateRandomId (random36 h t) 6).
    split; [reflexivity|]. split; [apply getPlatformPrefix_alnum|].
    split; [apply generateRandomId_length | apply generateRandomId_noLower]. }
  destruct Fallback as (fh & ft & Efb & F1 & F2 & F3).
  destruct (nth 0 results None) as [info|].
  - destruct (JS.truthyStr _) as [model|].
    + unfold UserFriendlyIdService.extractIdPartOf.
      destruct (nth 1 results None) as [[d|i]|]; unfold ret, throw.
      * rewrite Efb. exists t, fh, ft. auto.
      * eexists t, _, _. split; [reflexivity|].
        split; [|apply extractIdPart_shape].
        unfold cleanModelName.
        destruct (JS.truthyStr _); [apply filterStr_all | reflexivity].
      * eexists t, _, _. split; [reflexivity|].
        split; [|apply extractIdPart_shape].
        unfold cleanModelName.
        destruct (JS.truthyStr _); [apply filterStr_all | reflexivity].
    + rewrite Efb. exists t, fh, ft. auto.
  - rewrite Efb. exists t, fh, ft. auto.
Qed.

End FriendlyId.

Lemma getUserFriendlyId_format_witness :
  exists t head tail,
    DeviceService.getUserFriendlyId iPhoneHost 0
    = Settles t (Fulfilled (head ++ "-" ++ tail)) /\
    String.length tail <= 6.
Proof.
  destruct (getUserFriendlyId_format iPhoneHost 0)
    as (t & head & tail & E & _ & L & _).
  - intros t id E. vm_compute in E. inversion E. reflexivity.
  - exists t, head, tail. split; [exact E | exact L].
Defined.

Lemma withTimeoutAll_before (firstWins : time -> bool) {T}
  (ops : list (thunk (option T))) (timeoutMs : nat) (now bound : time)
  (ps : list (promise (option T))) :
  returnsAll ops now ps ->
  now < bound -> bound <= now + timeoutMs ->
  Forall (settledBefore bound) ps ->
  exists t,
    now <= t < bound /\
    withTimeoutAll firstWins ops timeoutMs now
    = Settles t (Fulfilled (map resultOrNull ps)).
Proof.
  intros HR Hnow Hbound HS.
  destruct (all_caught_in_time now bound ps Hnow HS) as (t & E & Ht).
  exists (Nat.max now t). split; [lia|].
  unfold withTimeoutAll, tryCatch, bind, call, await, ret.
  rewrite (invokeAll_returned _ _ _ HR), E.
  unfold race, rejectAfter, catchWith.
  destruct (Nat.ltb_spec t (now + timeoutMs)); [reflexivity | lia].
Qed.

Lemma cleanModelName_known (mn dn : option string) (model : string) :
  JS.truthyStr (JS.orStr mn dn) = Some model ->
  cleanModelName (JS.orStr (JS.orStr mn dn) (Some "Device"))
  = JS.filterStr JS.isAlnum model.
Proof.
  intros E. destruct (truthyStr_some _ _ E) as [E' Hne].
  rewrite E'. unfold JS.orStr at 1. rewrite (truthyStr_nonempty _ Hne).
  unfold cleanModelName. rewrite (truthyStr_nonempty _ Hne). reflexivity.
Qed.

(** X5: on a platform other than the web, the label is decided by what
    [getDeviceInfo] and [getDeviceId] deliver for the same call, and it is
    there within 1000 ms: the shared timer of 2000 ms never fires.  With a
    model name, or else a device name, in the snapshot the label is that
    name stripped to letters and digits, a hyphen and [extractIdPart] of
    the identifier, which is a random token when the identifier is
    [null]; with neither name it is the platform prefix, a hyphen and a
    random token. *)
Theorem getUserFriendlyId_cases (h : Host) (now t1 t2 : time) (d : DeviceInfo)
  (deviceId : option string) :
  OS h <> "web" ->
  DeviceService.getDeviceInfo h now = Settles t1 (Fulfilled d) ->
  DeviceService.getDeviceId h now = Settles t2 (Fulfilled deviceId) ->
  exists t,
    now <= t <= now + 1000 /\
    DeviceService.getUserFriendlyId h now
    = Settles t (Fulfilled
        match JS.truthyStr (JS.orStr (modelName d) (deviceName d)) with
        | Some model =>
            JS.filterStr JS.isAlnum model ++ "-"
            ++ extractIdPart (random36 h t) deviceId 6
        | None =>
            getPlatformPrefix (OS h) ++ "-" ++ generateRandomId (random36 h t) 6
        end).
Proof.
  unfold DeviceService.getDeviceInfo, DeviceService.getDeviceId,
    DeviceService.getUserFriendlyId.
  intros Hweb E1 E2.
  destruct (getDeviceInfo_resolves h now) as (t1' & d' & E1' & B1).
  destruct (getDeviceId_resolves h now) as (t2' & i' & E2' & B2).
  rewrite E1 in E1'. rewrite E2 in E2'.
  inversion E1'; inversion E2'; subst t1' d' t2' i'. clear E1' E2'.
  unfold UserFriendlyIdService.getUserFriendlyId.
  destruct (String.eqb_spec (OS h) "web") as [|_]; [contradiction|].
  destruct (withTimeoutAll_before (scheduler h)
              [UserFriendlyIdService.fetchInfo h; UserFriendlyIdService.fetchId h]
              2000 now (now + 1001)
              [Settles t1 (Fulfilled (Some (UserFriendlyIdService.FetchedInfo d)));
               Settles t2 (Fulfilled
                 match deviceId with
                 | Some s => Some (UserFriendlyIdService.FetchedId s)
                 | None => None
                 end)])
    as (t & Ht & E).
  { constructor; [|constructor; [|constructor]].
    - unfold UserFriendlyIdService.fetchInfo, start, bind. rewrite E1. reflexivity.
    - unfold UserFriendlyIdService.fetchId, start, bind. rewrite E2. reflexivity. }
  { lia. }
  { lia. }
  { constructor; [simpl; lia|]. constructor; [simpl; lia|]. constructor. }
  exists t. split; [lia|].
  unfold tryCatch, bind. rewrite E. simpl.
  destruct (JS.truthyStr (JS.orStr (modelName d) (deviceName d)))
    as [model|] eqn:EM; [|reflexivity].
  rewrite (cleanModelName_known _ _ _ EM).
  unfold UserFriendlyIdService.extractIdPartOf, ret.
  destruct deviceId; reflexivity.
Qed.

Lemma getUserFriendlyId_cases_witness :
  (exists t, DeviceService.getUserFriendlyId stuckIdHost 0
             = Settles t (Fulfilled "Pixel7-4FZYO8"))
  /\ (exists t, DeviceService.getUserFriendlyId unreadyHost 0
                = Settles t (Fulfilled "iOS-4FZYO8")).
Proof.
  split.
  - destruct (getUserFriendlyId_cases stuckIdHost 0 20 1000
                {| brand := Some "Google";
                   manufacturer := Some "Acme";
                   modelName := Some "Pixel 7";
                   modelId := Some "model-1";
                   deviceName := Some "Phone";
                   deviceYearClass := Some 2021%Z;
                   deviceType := Some PHONE;
                   isDevice := true;
                   osName := Some "OS";
                   osVersion := Some "17.0";
                   osBuildId := Some "21A";
                   platformApiLevel := None;
                   totalMemory := Some (8 * 1024 * 1024 * 1024)%Z;
                   platform := "android" |}
                None) as (t & _ & E).
    + discriminate.
    + reflexivity.
    + reflexivity.
    + exists t. exact E.
  - destruct (getUserFriendlyId_cases unreadyHost 0 1000 1000
                (DeviceInfoService.getMinimalDeviceInfo unreadyHost)
                None) as (t & _ & E).
    + discriminate.
    + reflexivity.
    + reflexivity.
    + exists t. exact E.
Defined.

(* ================================================================== *)
(** * Further properties: the guarded call primitives *)
(* ================================================================== *)

Section GuardedCallsMore.

Variable firstWins : time -> bool.

(** X6: [withTimeout] and [withTimeoutAll] never reject and never stay
    pending, whatever the operations do: called at [now], each fulfils no
    earlier than [now] and no later than [now + timeoutMs]. *)
Theorem guarded_calls_bounded :
  (forall T (op : thunk (option T)) (timeoutMs : nat),
     resolvesWithin timeoutMs (withTimeout firstWins op timeoutMs)) /\
  (forall T (ops : list (thunk (option T))) (timeoutMs : nat),
     resolvesWithin timeoutMs (withTimeoutAll firstWins ops timeoutMs)).
Proof.
  split.
  - intros T op timeoutMs. apply withTimeout_resolves.
  - intros T ops timeoutMs now.
    destruct (withTimeoutAll_resolves firstWins ops timeoutMs now)
      as (t & vs & E & Ht & _).
    exists t, vs. split; [exact E | exact Ht].
Qed.


End GuardedCallsMore.


(* ================================================================== *)
(** * Further properties: display strings and classification *)
(* ================================================================== *)

Section DisplayAndClassification.
Import DeviceUtils.
Local Open Scope Z_scope.

Lemma truthyStr_blank (x : option string) :
  blank x -> JS.truthyStr x = None.
Proof. intros [-> | ->]; reflexivity. Qed.

Lemma append_nonempty (a b : string) : a <> "" -> a ++ b <> "".
Proof. destruct a; [contradiction | discriminate]. Qed.

(** X8: the three display functions never return the empty string: each
    returns a non-empty field, a non-empty combination of fields, or its
    ["Unknown ..."] literal.  An empty field is treated as an absent
    one. *)
Theorem display_strings_nonempty :
  (forall info, getDeviceDisplayName info <> "") /\
  (forall info, getOSDisplayString info <> "") /\
  (forall app, getAppVersionString app <> "") /\
  (forall info, blank (deviceName info) -> blank (modelName info) ->
     blank (brand info) -> getDeviceDisplayName info = "Unknown Device") /\
  (forall info, blank (osName info) -> getOSDisplayString info = "Unknown OS") /\
  (forall app, blank (nativeApplicationVersion app) ->
     getAppVersionString app = "Unknown Version").
Proof.
  repeat split.
  - intros info. unfold getDeviceDisplayName.
    destruct (JS.truthyStr (deviceName info)) eqn:E1;
      [apply (truthyStr_some _ _ E1)|].
    destruct (JS.truthyStr (modelName info)) eqn:E2;
      [apply (truthyStr_some _ _ E2)|].
    destruct (JS.truthyStr (brand info)) eqn:E3; [|discriminate].
    destruct (JS.truthyStr (manufacturer info)); [|discriminate].
    apply append_nonempty, (truthyStr_some _ _ E3).
  - intros info. unfold getOSDisplayString.
    destruct (JS.truthyStr (osName info)) eqn:E1; [|discriminate].
    destruct (JS.truthyStr (osVersion info)).
    + apply append_nonempty, (truthyStr_some _ _ E1).
    + apply (truthyStr_some _ _ E1).
  - intros app. unfold getAppVersionString.
    destruct (JS.truthyStr (nativeApplicationVersion app)) eqn:E1; [|discriminate].
    destruct (JS.truthyStr (nativeBuildVersion app)).
    + apply append_nonempty, (truthyStr_some _ _ E1).
    + apply (truthyStr_some _ _ E1).
  - intros info H1 H2 H3. unfold getDeviceDisplayName.
    rewrite (truthyStr_blank _ H1), (truthyStr_blank _ H2), (truthyStr_blank _ H3).
    reflexivity.
  - intros info H1. unfold getOSDisplayString.
    rewrite (truthyStr_blank _ H1). reflexivity.
  - intros app H1. unfold getAppVersionString.
    rewrite (truthyStr_blank _ H1). reflexivity.
Qed.

Lemma display_strings_nonempty_witness :
  getOSDisplayString
    {| brand := Some "Acme"; manufacturer := None; modelName := None;
       modelId := None; deviceName := Some ""; deviceYearClass := None;
       deviceType := None; isDevice := true; osName := None;
       osVersion := Some "17.0"; osBuildId := None; platformApiLevel := None;
       totalMemory := None; platform := "ios" |}
  = "Unknown OS"
  /\ getAppVersionString
       {| applicationName := "App"; applicationId := "id";
          nativeApplicationVersion := Some ""; nativeBuildVersion := Some "42";
          installTime := None; lastUpdateTime := None;
          androidId := None; iosIdForVendor := None |}
     = "Unknown Version"
  /\ getDeviceDisplayName (snapshot None None true) = "Unknown Device".
Proof.
  split; [|split].
  - apply (proj1 (proj2 (proj2 (proj2 (proj2 display_strings_nonempty))))).
    left; reflexivity.
  - apply (proj2 (proj2 (proj2 (proj2 (proj2 display_strings_nonempty))))).
    right; reflexivity.
  - apply (proj1 (proj2 (proj2 (proj2 display_strings_nonempty))));
      left; reflexivity.
Defined.

Lemma memoryCheck_empty (info : DeviceInfo) (minMemoryGB : Z) :
  memoryCheck info minMemoryGB = []
  <-> (forall m, JS.truthyNum (totalMemory info) = Some m -> minMemoryGB * GiB <= m).
Proof.
  unfold memoryCheck. destruct (JS.truthyNum (totalMemory info)) as [m|].
  - rewrite Qltb_inGiB. destruct (Z.ltb_spec m (minMemoryGB * GiB)); split.
    + discriminate.
    + intros H'. specialize (H' m eq_refl). lia.
    + intros _ m' E. inversion E; subst. lia.
    + reflexivity.
  - split; [intros _ m E; discriminate | reflexivity].
Qed.

(** X9: the tier never decreases with the hardware.  Between two snapshots
    with non-zero year classes, the one with the later year class has the
    same or a higher tier; and between two snapshots without a year class
    (absent or 0) and with non-zero memory, the one with more memory has
    the same or a higher tier. *)
Theorem getDeviceTier_monotone (a b : DeviceInfo) :
  (forall y1 y2,
     deviceYearClass a = Some y1 -> deviceYearClass b = Some y2 ->
     y1 <> 0 -> y2 <> 0 -> y1 <= y2 ->
     (tierRank (getDeviceTier a) <= tierRank (getDeviceTier b))%nat) /\
  (forall m1 m2,
     JS.truthyNum (deviceYearClass a) = None ->
     JS.truthyNum (deviceYearClass b) = None ->
     totalMemory a = Some m1 -> totalMemory b = Some m2 ->
     m1 <> 0 -> m2 <> 0 -> m1 <= m2 ->
     (tierRank (getDeviceTier a) <= tierRank (getDeviceTier b))%nat).
Proof.
  split.
  - intros y1 y2 Ea Eb N1 N2 Hle.
    rewrite !getDeviceTier_worded.
    unfold AsWorded.getDeviceTier, zeroAsAbsent; simpl.
    rewrite (proj2 (truthyNum_some _ y1) (conj Ea N1)).
    rewrite (proj2 (truthyNum_some _ y2) (conj Eb N2)).
    unfold AsWorded.tierByYear.
    destruct (Z.leb_spec 2022 y1); destruct (Z.leb_spec 2022 y2);
      destruct (Z.leb_spec 2019 y1); destruct (Z.leb_spec 2019 y2);
      simpl; lia.
  - intros m1 m2 Ya Yb Ea Eb N1 N2 Hle.
    rewrite !getDeviceTier_worded.
    unfold AsWorded.getDeviceTier, zeroAsAbsent; simpl.
    rewrite Ya, Yb.
    rewrite (proj2 (truthyNum_some _ m1) (conj Ea N1)).
    rewrite (proj2 (truthyNum_some _ m2) (conj Eb N2)).
    unfold AsWorded.tierByMemory, GiB.
    destruct (Z.leb_spec (6 * (1024 * 1024 * 1024)) m1);
      destruct (Z.leb_spec (6 * (1024 * 1024 * 1024)) m2);
      destruct (Z.leb_spec (3 * (1024 * 1024 * 1024)) m1);
      destruct (Z.leb_spec (3 * (1024 * 1024 * 1024)) m2);
      simpl; lia.
Qed.

Lemma getDeviceTier_monotone_witness :
  Nat.le (tierRank (getDeviceTier (snapshot (Some 2016) None true)))
         (tierRank (getDeviceTier (snapshot (Some 2020) None true)))
  /\ Nat.le (tierRank (getDeviceTier (snapshot None (Some (2 * 1073741824)) true)))
            (tierRank (getDeviceTier
                         (snapshot (Some 0) (Some (7 * 1073741824)) true))).
Proof.
  split.
  - apply (proj1 (getDeviceTier_monotone _ _) 2016 2020);
      try reflexivity; try discriminate; lia.
  - apply (proj2 (getDeviceTier_monotone _ _) (2 * 1073741824) (7 * 1073741824));
      try reflexivity; try discriminate; lia.
Defined.

(** X10: [meetsMinimumRequirements] gives at most 3 reasons; a snapshot
    that is not a physical device never meets the requirements, whatever
    the threshold; and one that meets them for a threshold meets them for
    every lower threshold. *)
Theorem meetsMinimumRequirements_thresholds (info : DeviceInfo) :
  (forall minMemoryGB,
     (List.length (reasons (meetsMinimumRequirements info minMemoryGB)) <= 3)%nat) /\
  (forall minMemoryGB, isDevice info = false ->
     meets (meetsMinimumRequirements info minMemoryGB) = false) /\
  (forall lower higher, lower <= higher ->
     meets (meetsMinimumRequirements info higher) = true ->
     meets (meetsMinimumRequirements info lower) = true).
Proof.
  split; [|split].
  - intros minMemoryGB. rewrite reasons_split. rewrite !length_app.
    unfold deviceCheck, memoryCheck, yearCheck.
    destruct (negb (isDevice info));
      destruct (JS.truthyNum (totalMemory info)) as [m|];
      try destruct (JS.Qltb (inGiB m) (inject_Z minMemoryGB));
      destruct (JS.truthyNum (deviceYearClass info)) as [y|];
      try destruct (y <? 2018); simpl; lia.
  - intros minMemoryGB Hsim.
    destruct (meets (meetsMinimumRequirements info minMemoryGB)) eqn:E;
      [|reflexivity].
    apply meets_iff_no_reason in E. rewrite reasons_split in E.
    unfold deviceCheck in E. rewrite Hsim in E. discriminate E.
  - intros lower higher Hle Hmeets.
    apply meets_iff_no_reason in Hmeets. apply meets_iff_no_reason.
    rewrite reasons_split in *.
    apply app_eq_nil in Hmeets. destruct Hmeets as [HD Hrest].
    apply app_eq_nil in Hrest. destruct Hrest as [HM HY].
    rewrite HD, HY.
    assert (memoryCheck info lower = []) as ->; [|reflexivity].
    apply memoryCheck_empty. intros m E.
    pose proof (proj1 (memoryCheck_empty info higher) HM m E).
    unfold GiB in *. lia.
Qed.

Lemma meetsMinimumRequirements_thresholds_witness :
  meets (meetsMinimumRequirements oldSimulator 0) = false
  /\ meets (meetsMinimumRequirements
              (snapshot (Some 2021) (Some (4 * 1073741824)) true) 2) = true.
Proof.
  split.
  - apply (proj1 (proj2 (meetsMinimumRequirements_thresholds oldSimulator)) 0).
    reflexivity.
  - apply (proj2 (proj2 (meetsMinimumRequirements_thresholds
                           (snapshot (Some 2021) (Some (4 * 1073741824)) true)))
             2 4).
    + lia.
    + reflexivity.
Defined.

(** X11: a byte count just below 1 GiB, from 1073736582 to 1073741823, is
    shown in the MB unit and rounds up to ["1024.00 MB"]. *)
Theorem formatMemorySize_just_below_GiB (bytes : Z) :
  1073736582 <= bytes < 1073741824 ->
  formatMemorySize (Some bytes) = "1024.00 MB".
Proof.
  intros Hb. rewrite formatMemorySize_worded.
  rewrite (proj2 (truthyNum_some (Some bytes) bytes)) by (split; [reflexivity | lia]).
  unfold AsWorded.formatMemorySize, GiB.
  destruct (Z.leb_spec (1024 * 1024 * 1024) bytes); [lia|].
  unfold JS.toFixed2.
  assert (Qle_bool 0 (inMiB bytes) = true) as ->.
  { apply Qle_bool_iff. unfold inMiB, MiB, Qle; simpl. lia. }
  unfold JS.toFixed2Abs.
  assert (Qfloor (inMiB bytes * 100 + (1 # 2)) = 102400) as ->; [|reflexivity].
  unfold Qfloor, inMiB, MiB, Qplus, Qmult, Qdiv, Qinv, inject_Z; simpl.
  symmetry. apply (Z.div_unique _ _ 102400
                     (bytes * 1 * 100 * 2 + 1048576 - 2097152 * 102400)); lia.
Qed.

Lemma formatMemorySize_just_below_GiB_witness :
  formatMemorySize (Some 1073741823) = "1024.00 MB".
Proof. apply formatMemorySize_just_below_GiB. lia. Defined.

End DisplayAndClassification.

(* ================================================================== *)
(** * Further properties: the snapshots *)
(* ================================================================== *)

Section Snapshots.

Variable h : Host.

Lemma orUnknown_nonempty (s : string) :
  ApplicationInfoService.orUnknown s <> "".
Proof. destruct s; discriminate. Qed.

Lemma truthyStr_not_empty (x : option string) : JS.truthyStr x <> Some "".
Proof. destruct x as [[|c r]|]; discriminate. Qed.

(** X12: whatever the providers do, the application snapshot of
    [getApplicationInfo] has a non-empty name and a non-empty identifier of
    the application, at most one of [androidId] and [iosIdForVendor], the
    first only on Android and the second only on iOS, and neither is ever
    the empty string. *)
Theorem getApplicationInfo_invariants (now : time) :
  exists t app,
    DeviceService.getApplicationInfo h now = Settles t (Fulfilled app) /\
    applicationName app <> "" /\
    applicationId app <> "" /\
    (androidId app = None \/ iosIdForVendor app = None) /\
    (androidId app <> None -> OS h = "android") /\
    (iosIdForVendor app <> None -> OS h = "ios") /\
    androidId app <> Some "" /\
    iosIdForVendor app <> Some "".
Proof.
  unfold DeviceService.getApplicationInfo.
  pose proof (resolves_all2 1000 _ _
                (withTimeout_resolves (scheduler h)
                   (Application.getInstallationTimeAsync (applicationModule h)) 1000)
                (withTimeout_resolves (scheduler h)
                   (Application.getLastUpdateTimeAsync (applicationModule h)) 1000)
                now) as (t & [i u] & E & _).
  cbv beta in E.
  cbv [ApplicationInfoService.getApplicationInfo tryCatch bind].
  rewrite E. cbv iota beta.
  destruct (String.eqb_spec (OS h) "android") as [EA|EA].
  - assert ((OS h =? "ios")%string = false) as ->
      by (rewrite EA; reflexivity).
    destruct (withTimeout_resolves (scheduler h)
                (asyncArrow (Application.getAndroidId (applicationModule h)))
                1000 t) as (t' & r & E' & _).
    rewrite E'. eexists _, _. split; [reflexivity|]. simpl.
    repeat split; try apply orUnknown_nonempty; try apply truthyStr_not_empty;
      auto; try discriminate.
    intros X; contradiction.
  - destruct (String.eqb_spec (OS h) "ios") as [EI|EI].
    + destruct (withTimeout_resolves (scheduler h)
                  (asyncArrow (Application.getIosIdForVendorAsync (applicationModule h)))
                  1000 t) as (t' & r & E' & _).
      unfold ret at 1. cbv iota beta. rewrite E'.
      eexists _, _. split; [reflexivity|]. simpl.
      repeat split; try apply orUnknown_nonempty; try apply truthyStr_not_empty;
        auto; try discriminate.
      intros X; contradiction.
    + eexists _, _. split; [reflexivity|]. simpl.
      repeat split; try apply orUnknown_nonempty; auto; try discriminate;
        intros X; contradiction.
Qed.

(** X13: [getSystemInfo] pairs what [getDeviceInfo] and
    [getApplicationInfo] deliver for a call at the same time: it fulfils
    when the later of the two has, with both snapshots unchanged, that time
    as [timestamp], and [userId] only when the option is a non-empty
    string. *)
Theorem getSystemInfo_pairs (requested : option string) (now t1 t2 : time)
  (d : DeviceInfo) (app : ApplicationInfo) :
  DeviceService.getDeviceInfo h now = Settles t1 (Fulfilled d) ->
  DeviceService.getApplicationInfo h now = Settles t2 (Fulfilled app) ->
  DeviceService.getSystemInfo h requested now
  = Settles (Nat.max t1 t2)
      (Fulfilled {| device := d;
                    application := app;
                    timestamp := Nat.max t1 t2;
                    userId := JS.truthyStr requested |}).
Proof.
  unfold DeviceService.getDeviceInfo, DeviceService.getApplicationInfo.
  intros E1 E2.
  destruct (getDeviceInfo_resolves h now) as (t1' & d' & E1' & B1).
  destruct (getApplicationInfo_resolves h now) as (t2' & a' & E2' & B2).
  rewrite E1 in E1'. rewrite E2 in E2'.
  inversion E1'; inversion E2'; subst t1' d' t2' a'. clear E1' E2'.
  cbv [DeviceService.getSystemInfo bind]. rewrite E1, E2.
  unfold all2, await, ret.
  replace (Nat.max now (Nat.max now (Nat.max t1 t2))) with (Nat.max t1 t2) by lia.
  reflexivity.
Qed.

(** X14: [getDeviceCapabilities] is read off the snapshot [getDeviceInfo]
    delivers for the same call and settles with it.  When the read
    [Device.DeviceType.TABLET] returns at that time, it fulfils:
    [isDevice] is the snapshot's, [isTablet] compares the snapshot's device
    type with the constant read, which is [DeviceUtils.isTablet] of it when
    the constant is the tablet type, [totalMemoryGB] is its memory in GiB,
    [null] when the memory is absent or 0, and [hasNotch] is what
    [hasNotch] answers at that time, [false] off iOS.  When that read
    throws, [getDeviceCapabilities] rejects. *)
Theorem getDeviceCapabilities_from_snapshot (now t : time) (d : DeviceInfo) :
  DeviceService.getDeviceInfo h now = Settles t (Fulfilled d) ->
  (forall tablet,
     Device.DeviceType_TABLET (deviceModule h) t = Returned tablet ->
     exists notch,
       DeviceService.hasNotch h t = Settles t (Fulfilled notch) /\
       DeviceService.getDeviceCapabilities h now
       = Settles t
           (Fulfilled {| Capabilities.isDevice := isDevice d;
                         Capabilities.isTablet :=
                           strictEqualsDeviceType (deviceType d) tablet;
                         Capabilities.hasNotch := notch;
                         Capabilities.totalMemoryGB :=
                           option_map DeviceUtils.inGiB
                             (JS.truthyNum (totalMemory d)) |}) /\
       (tablet = IsValue TABLET ->
        strictEqualsDeviceType (deviceType d) tablet
        = DeviceUtils.isTablet (deviceType d)) /\
       (OS h <> "ios" -> notch = false) /\
       (option_map DeviceUtils.inGiB (JS.truthyNum (totalMemory d)) = None
        <-> totalMemory d = None \/ totalMemory d = Some 0%Z)) /\
  (Device.DeviceType_TABLET (deviceModule h) t = Thrown ->
   DeviceService.getDeviceCapabilities h now = Settles t Rejected).
Proof.
  unfold DeviceService.getDeviceInfo, DeviceService.hasNotch,
    DeviceService.getDeviceCapabilities.
  intros E. split.
  - intros tablet ET.
    destruct (hasNotch_resolves h t) as (t' & notch & EN & BN).
    assert (t' = t) by lia. subst t'.
    exists notch. split; [exact EN|]. split; [|split; [|split]].
    + cbv [DeviceCapabilityService.getDeviceCapabilities bind call].
      rewrite E, ET, EN. unfold ret, option_map.
      destruct (JS.truthyNum (totalMemory d)); reflexivity.
    + intros ->. unfold strictEqualsDeviceType, DeviceUtils.isTablet.
      destruct (deviceType d); reflexivity.
    + intros Hios. revert EN.
      unfold DeviceCapabilityService.hasNotch, tryCatch, ret.
      destruct (String.eqb_spec (OS h) "ios") as [|_]; [contradiction|].
      simpl. intros X; inversion X. reflexivity.
    + rewrite <- truthyNum_none.
      destruct (JS.truthyNum (totalMemory d)); simpl; split;
        auto; discriminate.
  - intros ET.
    cbv [DeviceCapabilityService.getDeviceCapabilities bind call].
    rewrite E, ET. reflexivity.
Qed.

(** X15: [hasNotch] answers [false] at once on every platform other than
    iOS, without reading the model name; on iOS it answers [false] when
    reading the model name throws or gives [null] or the empty string, and
    [true] for every model name that contains ["pro"] in whatever letter
    case. *)
Theorem hasNotch_cases (now : time) :
  (OS h <> "ios" ->
   DeviceService.hasNotch h now = Settles now (Fulfilled false)) /\
  (Device.modelName (deviceModule h) now = Thrown
   \/ Device.modelName (deviceModule h) now = Returned None
   \/ Device.modelName (deviceModule h) now = Returned (Some "") ->
   DeviceService.hasNotch h now = Settles now (Fulfilled false)) /\
  (forall m, OS h = "ios" ->
     Device.modelName (deviceModule h) now = Returned (Some m) ->
     JS.includes "pro" (JS.toLowerCase m) = true ->
     DeviceService.hasNotch h now = Settles now (Fulfilled true)).
Proof.
  unfold DeviceService.hasNotch, DeviceCapabilityService.hasNotch,
    DeviceCapabilityService.lowerModelName, tryCatch, ret.
  split; [|split].
  - intros Hios. destruct (String.eqb_spec (OS h) "ios") as [|_];
      [contradiction | reflexivity].
  - intros HM. destruct (OS h =? "ios")%string; [|reflexivity]. simpl.
    destruct HM as [-> | [-> | ->]]; reflexivity.
  - intros m -> EM Hpro. simpl. rewrite EM. unfold safeAccess, JS.orStr.
    destruct (JS.toLowerCase m) as [|c r] eqn:EL; [discriminate Hpro|].
    cbv [JS.truthyStr]. rewrite Hpro. rewrite !orb_true_r. reflexivity.
Qed.

Lemma withTimeout_some_inv (firstWins : time -> bool) {T}
  (op : thunk (option T)) (timeoutMs : nat) (now t : time) (v : T) :
  withTimeout firstWins op timeoutMs now = Settles t (Fulfilled (Some v)) ->
  exists tp,
    op now = Returned (Settles tp (Fulfilled (Some v)))
    /\ tp <= now + timeoutMs.
Proof.
  unfold withTimeout, tryCatch, bind, call, await, race, rejectAfter, ret.
  destruct (op now) as [[tp [w|]|]|]; try discriminate.
  - destruct (Nat.ltb_spec tp (now + timeoutMs)).
    + intros X; inversion X; subst. exists tp. split; [reflexivity | lia].
    + destruct (Nat.ltb_spec (now + timeoutMs) tp); [discriminate|].
      destruct (firstWins tp); [|discriminate].
      intros X; inversion X; subst. exists tp. split; [reflexivity | lia].
  - destruct (Nat.ltb_spec tp (now + timeoutMs)); [discriminate|].
    destruct (Nat.ltb_spec (now + timeoutMs) tp); [discriminate|].
    destruct (firstWins tp); discriminate.
Qed.

Lemma asyncArrow_fulfilled {A} (f : thunk A) (now tp : time) (v : A) :
  asyncArrow f now = Returned (Settles tp (Fulfilled v)) ->
  f now = Returned (Settles tp (Fulfilled v)).
Proof.
  unfold asyncArrow. destruct (f now); [auto | discriminate].
Qed.

(** X16: an identifier [getDeviceId] returns is the one the platform's
    provider call fulfilled with, no later than 1000 ms after the call:
    [getAndroidId] on Android, [getIosIdForVendorAsync] on iOS; it is never
    the empty string.  On every other platform the result is [null] at
    once, whatever the providers do. *)
Theorem getDeviceId_sound (now : time) :
  (forall t id,
     DeviceService.getDeviceId h now = Settles t (Fulfilled (Some id)) ->
     id <> "" /\
     exists tp,
       tp <= now + 1000 /\
       ((OS h = "android" /\
         Application.getAndroidId (applicationModule h) now
         = Returned (Settles tp (Fulfilled (Some id))))
        \/ (OS h = "ios" /\
            Application.getIosIdForVendorAsync (applicationModule h) now
            = Returned (Settles tp (Fulfilled (Some id)))))) /\
  (OS h <> "android" -> OS h <> "ios" ->
   DeviceService.getDeviceId h now = Settles now (Fulfilled None)).
Proof.
  unfold DeviceService.getDeviceId, DeviceIdService.getDeviceId, tryCatch.
  split.
  - intros t id.
    destruct (String.eqb_spec (OS h) "android") as [EA|EA].
    + unfold bind, ret.
      destruct (withTimeout (scheduler h) _ 1000 now) as [t' [r|]|] eqn:E;
        try discriminate.
      intros X. injection X as Ht Hr. subst t'.
      destruct (truthyStr_some _ _ Hr) as [-> Hne]. split; [exact Hne|].
      destruct (withTimeout_some_inv _ _ _ _ _ _ E) as (tp & Eop & Htp).
      exists tp. split; [exact Htp|]. left. split; [exact EA|].
      apply asyncArrow_fulfilled, Eop.
    + destruct (String.eqb_spec (OS h) "ios") as [EI|EI].
      * unfold bind, ret.
        destruct (withTimeout (scheduler h) _ 1000 now) as [t' [r|]|] eqn:E;
          try discriminate.
        intros X. injection X as Ht Hr. subst t'.
        destruct (truthyStr_some _ _ Hr) as [-> Hne]. split; [exact Hne|].
        destruct (withTimeout_some_inv _ _ _ _ _ _ E) as (tp & Eop & Htp).
        exists tp. split; [exact Htp|]. right. split; [exact EI|].
        apply asyncArrow_fulfilled, Eop.
      * unfold ret. discriminate.
  - intros EA EI.
    destruct (String.eqb_spec (OS h) "android") as [|_]; [contradiction|].
    destruct (String.eqb_spec (OS h) "ios") as [|_]; [contradiction|].
    reflexivity.
Qed.

End Snapshots.

Lemma getSystemInfo_pairs_witness :
  exists t sys,
    DeviceService.getSystemInfo halfReadyHost (Some "") 0
    = Settles t (Fulfilled sys)
    /\ t = 35 /\ timestamp sys = 35 /\ userId sys = None
    /\ androidId (application sys) = Some "9774d56d682e549c"
    /\ brand (device sys) = None.
Proof.
  eexists _, _. split.
  - apply (getSystemInfo_pairs halfReadyHost (Some "") 0 20 35);
      reflexivity.
  - repeat split; reflexivity.
Defined.

Lemma getDeviceCapabilities_from_snapshot_witness :
  (exists t caps,
     DeviceService.getDeviceCapabilities halfReadyHost 0
     = Settles t (Fulfilled caps)
     /\ Capabilities.hasNotch caps = false
     /\ Capabilities.isTablet caps = false)
  /\ DeviceService.getDeviceCapabilities unreadyHost 0 = Settles 1000 Rejected.
Proof.
  split.
  - destruct (proj1 (getDeviceCapabilities_from_snapshot halfReadyHost 0 20
                {| brand := None;
                   manufacturer := Some "Acme";
                   modelName := Some "Pixel 7";
                   modelId := Some "model-1";
                   deviceName := Some "Phone";
                   deviceYearClass := Some 2021%Z;
                   deviceType := Some PHONE;
                   isDevice := true;
                   osName := Some "OS";
                   osVersion := Some "17.0";
                   osBuildId := Some "21A";
                   platformApiLevel := None;
                   totalMemory := Some (8 * 1024 * 1024 * 1024)%Z;
                   platform := "android" |} eq_refl)
                (IsValue TABLET) eq_refl)
      as (notch & _ & E & _ & Hoff & _).
    eexists _, _. split; [exact E|]. split; [|reflexivity].
    simpl. apply Hoff. discriminate.
  - apply (proj2 (getDeviceCapabilities_from_snapshot unreadyHost 0 1000
                    (DeviceInfoService.getMinimalDeviceInfo unreadyHost) eq_refl)).
    reflexivity.
Defined.

Lemma hasNotch_cases_witness :
  DeviceService.hasNotch halfReadyHost 0 = Settles 0 (Fulfilled false)
  /\ DeviceService.hasNotch unreadyHost 0 = Settles 0 (Fulfilled false)
  /\ DeviceService.hasNotch iPhoneHost 0 = Settles 0 (Fulfilled true).
Proof.
  split; [|split].
  - apply (proj1 (hasNotch_cases halfReadyHost 0)). discriminate.
  - apply (proj1 (proj2 (hasNotch_cases unreadyHost 0))). left. reflexivity.
  - apply (proj2 (proj2 (hasNotch_cases iPhoneHost 0)) "iPhone 13 Pro!");
      reflexivity.
Defined.

Lemma getDeviceId_sound_witness :
  (exists tp,
     tp <= 0 + 1000 /\
     Application.getAndroidId (applicationModule halfReadyHost) 0
     = Returned (Settles tp (Fulfilled (Some "9774d56d682e549c"))))
  /\ DeviceService.getDeviceId webHost 0 = Settles 0 (Fulfilled None).
Proof.
  split.
  - destruct (proj1 (getDeviceId_sound halfReadyHost 0) 30 "9774d56d682e549c")
      as (_ & tp & Htp & [[_ E] | [EI _]]).
    + reflexivity.
    + exists tp. split; [exact Htp | exact E].
    + discriminate EI.
  - apply (proj2 (getDeviceId_sound webHost 0)); discriminate.
Defined.

(* ================================================================== *)
(** * Further properties: the self-contained [DeviceService] *)
(* ================================================================== *)

Section InlineService.

Variable h : Host.

(** Apart from a tie with the timer, the inline race is [withTimeout] on
    the call wrapped in an [async] arrow, whatever the two races' choices
    at a tie. *)
Lemma raceOrNull_withTimeout (callFirstWins : time -> bool)
  (f : thunk (option string)) (now : time) :
  (forall p, f now = Returned p -> notSettlingAt (now + 1000) p) ->
  InlineDeviceService.raceOrNull callFirstWins f now
  = withTimeout (scheduler h) (asyncArrow f) 1000 now.
Proof.
  intros Htie.
  unfold InlineDeviceService.raceOrNull, withTimeout, asyncArrow, tryCatch,
    bind, call, await, race, rejectAfter, catchWith, ret.
  destruct (f now) as [[tp [v|]|]|].
  - specialize (Htie _ eq_refl). simpl in Htie.
    destruct (Nat.ltb_spec tp (now + 1000)); [reflexivity|].
    destruct (Nat.ltb_spec (now + 1000) tp); [reflexivity | lia].
  - specialize (Htie _ eq_refl). simpl in Htie.
    destruct (Nat.ltb_spec tp (now + 1000)); [reflexivity|].
    destruct (Nat.ltb_spec (now + 1000) tp); [reflexivity | lia].
  - reflexivity.
  - destruct (Nat.ltb_spec now (now + 1000)); [|lia].
    rewrite Nat.max_id. reflexivity.
Qed.

(** X17: apart from a tie, that is an identifier call whose promise
    settles in the very millisecond in which the timer of 1000 ms fires,
    the identifier operations of the self-contained [DeviceService] and of
    [DeviceIdService] agree, whatever the event loop chooses at a tie in
    either.  [DeviceIdService.getDeviceId] is the inline [getDeviceId]
    followed by [result || null], so the two differ only where the provider
    fulfils with the empty string, and [getOfflineUserId] is the same in
    both, for every argument. *)
Theorem inline_identifier_agrees (callFirstWins : time -> bool) (now : time) :
  noIdentifierTie h now ->
  DeviceIdService.getDeviceId h now
  = (result <- InlineDeviceService.getDeviceId h callFirstWins ;;
     ret (JS.truthyStr result)) now
  /\ (forall fallbackId,
        InlineDeviceService.getOfflineUserId h callFirstWins fallbackId now
        = DeviceIdService.getOfflineUserId h fallbackId now).
Proof.
  intros Htie.
  assert (G : DeviceIdService.getDeviceId h now
              = (result <- InlineDeviceService.getDeviceId h callFirstWins ;;
                 ret (JS.truthyStr result)) now).
  { unfold DeviceIdService.getDeviceId, InlineDeviceService.getDeviceId,
      tryCatch, bind.
    destruct (OS h =? "android")%string.
    - rewrite raceOrNull_withTimeout by (intros p E; apply Htie; left; exact E).
      destruct (withTimeout_resolves (scheduler h)
                  (asyncArrow (Application.getAndroidId (applicationModule h)))
                  1000 now) as (t & r & E & _).
      rewrite E. reflexivity.
    - destruct (OS h =? "ios")%string.
      + rewrite raceOrNull_withTimeout by (intros p E; apply Htie; right; exact E).
        destruct (withTimeout_resolves (scheduler h)
                    (asyncArrow (Application.getIosIdForVendorAsync
                                   (applicationModule h)))
                    1000 now) as (t & r & E & _).
        rewrite E. reflexivity.
      + reflexivity. }
  split; [exact G|].
  intros fallbackId.
  unfold InlineDeviceService.getOfflineUserId, DeviceIdService.getOfflineUserId,
    DeviceIdService.defaultFallbackId.
  destruct (OS h =? "web")%string; [reflexivity|].
  unfold bind at 1 2. rewrite G. unfold bind.
  destruct (InlineDeviceService.getDeviceId h callFirstWins now) as [t [r|]|];
    [|reflexivity|reflexivity].
  unfold ret. rewrite truthyStr_idem. reflexivity.
Qed.

(** X18: [hasNotch] of the self-contained [DeviceService], which reads the
    model name inside [try], and [DeviceCapabilityService.hasNotch], which
    reads it through [safeAccess], give the same answer at the same time
    for every host. *)
Theorem inline_hasNotch_agrees (now : time) :
  InlineDeviceService.hasNotch h now = DeviceCapabilityService.hasNotch h now.
Proof.
  unfold InlineDeviceService.hasNotch, DeviceCapabilityService.hasNotch,
    InlineDeviceService.lowerModelName, DeviceCapabilityService.lowerModelName,
    tryCatch, bind, call, ret, safeAccess.
  destruct (OS h =? "ios")%string; [|reflexivity]. simpl.
  destruct (Device.modelName (deviceModule h) now) as [[m|]|];
    [|reflexivity|reflexivity].
  unfold JS.orStr, JS.truthyStr.
  destruct (JS.toLowerCase m); reflexivity.
Qed.

(** X19: [getApplicationInfo] of the self-contained [DeviceService] awaits
    the native calls unguarded.  It never rejects; it stays pending for
    ever when the installation-time call never settles and the
    last-update call does not fail; and it gives up everything for the
    all-["Unknown"] snapshot when the installation-time call throws, and
    when both times have arrived but reading the application name
    throws. *)
Theorem inline_getApplicationInfo_unguarded (now : time) :
  let A := applicationModule h in
  (forall t, InlineDeviceService.getApplicationInfo h now <> Settles t Rejected) /\
  (forall q,
     Application.getInstallationTimeAsync A now = Returned Pending ->
     Application.getLastUpdateTimeAsync A now = Returned q ->
     (forall t, q <> Settles t Rejected) ->
     InlineDeviceService.getApplicationInfo h now = Pending) /\
  (Application.getInstallationTimeAsync A now = Thrown ->
   InlineDeviceService.getApplicationInfo h now
   = Settles now (Fulfilled InlineDeviceService.minimalApplicationInfo)) /\
  (forall t1 t2 i u,
     Application.getInstallationTimeAsync A now
     = Returned (Settles t1 (Fulfilled i)) ->
     Application.getLastUpdateTimeAsync A now
     = Returned (Settles t2 (Fulfilled u)) ->
     Application.applicationName A (Nat.max now (Nat.max t1 t2)) = Thrown ->
     InlineDeviceService.getApplicationInfo h now
     = Settles (Nat.max now (Nat.max t1 t2))
         (Fulfilled InlineDeviceService.minimalApplicationInfo)).
Proof.
  intros A. split; [|split; [|split]].
  - intros t. unfold InlineDeviceService.getApplicationInfo, tryCatch.
    match goal with
    | |- match ?body with _ => _ end <> _ =>
        destruct body as [t' [v|]|]; unfold ret; discriminate
    end.
  - intros q E1 E2 Hq.
    cbv [InlineDeviceService.getApplicationInfo tryCatch bind call]. fold A.
    rewrite E1, E2. unfold all2, await.
    destruct q as [tq [v|]|]; [reflexivity | | reflexivity].
    exfalso. exact (Hq tq eq_refl).
  - intros E1.
    cbv [InlineDeviceService.getApplicationInfo tryCatch bind call]. fold A.
    rewrite E1. reflexivity.
  - intros t1 t2 i u E1 E2 EN.
    cbv [InlineDeviceService.getApplicationInfo tryCatch bind call]. fold A.
    rewrite E1, E2. unfold all2, await.
    replace (Nat.max now (Nat.max now (Nat.max t1 t2)))
      with (Nat.max now (Nat.max t1 t2)) by lia.
    rewrite EN. reflexivity.
Qed.

End InlineService.

Lemma inline_getApplicationInfo_unguarded_witness :
  InlineDeviceService.getApplicationInfo stuckInstallHost 0 = Pending
  /\ (exists t app,
        DeviceService.getApplicationInfo stuckInstallHost 0
        = Settles t (Fulfilled app)
        /\ installTime app = None
        /\ lastUpdateTime app = Some 1700000000000%Z
        /\ iosIdForVendor app = Some "ABCD-1234").
Proof.
  split.
  - apply (proj1 (proj2 (inline_getApplicationInfo_unguarded stuckInstallHost 0))
             (Settles 5 (Fulfilled (Some 1700000000000%Z)))).
    + reflexivity.
    + reflexivity.
    + intros t. discriminate.
  - eexists _, _. split; [reflexivity|]. repeat split; reflexivity.
Defined.

(** X20: on every platform other than the web, [getOfflineUserId] called
    without argument never returns [null]: it fulfils within 1000 ms with
    a string that starts with ["offline_"] and is longer than that
    prefix, be it the tagged identifier or the default ["offline_user"]. *)
Theorem getOfflineUserId_default_tagged (h : Host) (now : time) :
  OS h <> "web" ->
  exists t s,
    now <= t <= now + 1000 /\
    DeviceService.getOfflineUserId h None now = Settles t (Fulfilled (Some s)) /\
    String.prefix "offline_" s = true /\
    String.length "offline_" < String.length s.
Proof.
  intros Hweb.
  unfold DeviceService.getOfflineUserId, DeviceIdService.getOfflineUserId,
    DeviceIdService.defaultFallbackId.
  destruct (String.eqb_spec (OS h) "web") as [|_]; [contradiction|].
  destruct (getDeviceId_resolves h now) as (t & deviceId & E & Ht).
  pose proof (getDeviceId_truthy h _ _ _ E) as Htr.
  unfold bind. rewrite E, Htr.
  destruct deviceId as [id|].
  - exists t, ("offline_" ++ id). split; [exact Ht|]. split; [reflexivity|].
    split.
    + simpl. destruct id; reflexivity.
    + destruct id as [|c r]; [discriminate Htr|]. simpl. lia.
  - exists t, "offline_user". split; [exact Ht|]. split; [reflexivity|].
    split; [reflexivity | simpl; lia].
Qed.

Lemma getOfflineUserId_default_tagged_witness :
  exists t s,
    DeviceService.getOfflineUserId stuckIdHost None 0
    = Settles t (Fulfilled (Some s))
    /\ String.prefix "offline_" s = true.
Proof.
  destruct (getOfflineUserId_default_tagged stuckIdHost 0)
    as (t & s & _ & E & P & _).
  - discriminate.
  - exists t, s. split; [exact E | exact P].
Defined.

Lemma inline_identifier_agrees_witness :
  InlineDeviceService.getOfflineUserId halfReadyHost (fun _ => false) None 0
  = DeviceIdService.getOfflineUserId halfReadyHost None 0.
Proof.
  assert (Htie : noIdentifierTie halfReadyHost 0).
  { intros p [E | E]; vm_compute in E; inversion E; simpl; lia. }
  exact (proj2 (inline_identifier_agrees halfReadyHost (fun _ => false) 0 Htie)
           None).
Defined.
